(** * gyazo-mcp-server: the request handlers of [src/index.ts]

    A shallow embedding of the four protocol handlers (list resources, read a
    resource, list tools, call a tool) and of the helper
    [getImageMetadataMarkdown], with the properties of the specification
    stated and proved over it.

    Conventions.
    - A JavaScript string is a [string], one [ascii] per code unit; a byte
      buffer is a [list Byte.byte].
    - A value that the upstream JSON may leave out or set to [null] is an
      [option]; [None] is falsy, and so is the empty string.
    - A handler is a computation in the monad [M]: it reads the upstream
      service, appends every outbound call to a log, and either returns a
      value or throws.
    - The functions of the runtime the handlers call ([String.replace],
      [String.match] on the one pattern of the source, [Buffer.from] and
      [toString] in base64, [JSON.stringify] with an indentation of 2) are
      written out as functions of the same name or role.

    The definitions come first, the properties after them. *)

From Stdlib Require Import Bool List Ascii String ZArith NArith Lia.
From Stdlib Require Import Numbers.DecimalString.
Import ListNotations.
Local Open Scope string_scope.

(** ** Strings *)

Definition LF_char : ascii := ascii_of_nat 10.

(** The one-character string written ["\n"] in the source. *)
Definition LF : string := String LF_char "".

(** [s.startsWith(p)], the test also behind an anchored pattern. *)
Fixpoint starts_with (p s : string) : bool :=
  match p, s with
  | EmptyString, _ => true
  | String a p', String b s' => Ascii.eqb a b && starts_with p' s'
  | String _ _, EmptyString => false
  end.

(** [s.slice(n)] *)
Fixpoint drop (n : nat) (s : string) : string :=
  match n, s with
  | O, _ => s
  | S n', String _ s' => drop n' s'
  | S _, EmptyString => EmptyString
  end.

(** Truthiness of a possibly absent string: [if (v)] holds exactly for a
    present, non-empty string. *)
Definition truthy (v : option string) : bool :=
  match v with
  | Some (String _ _) => true
  | _ => false
  end.

(** The text a template literal interpolates for a possibly absent string. *)
Definition interp (v : option string) : string :=
  match v with
  | Some s => s
  | None => "null"
  end.

(** ** Data model *)

Record Metadata := {
  app : option string;
  title : option string;
  meta_url : option string;
  desc : option string
}.

Record Ocr := {
  locale : option string;
  description : option string
}.

Record GyazoImage := {
  image_id : string;
  permalink_url : string;
  thumb_url : string;
  url : string;
  type : string;
  created_at : string;
  metadata : Metadata;
  ocr : option Ocr
}.

(** The record of the search endpoint; its fields live in a module of their
    own, as they share their names with those of [GyazoImage]. *)
Module Search.
Record SearchedGyazoImage := {
  image_id : string;
  permalink_url : string;
  url : string;
  access_policy : option string;
  type : string;
  thumb_url : string;
  created_at : string;
  alt_text : string
}.
End Search.

(** ** The Markdown metadata block *)

(** [gyazoImage.ocr?.f] *)
Definition ocr_field (f : Ocr -> option string) (g : GyazoImage) : option string :=
  match ocr g with
  | Some o => f o
  | None => None
  end.

Definition getImageMetadataMarkdown (gyazoImage : GyazoImage) : string :=
  let imageMetadataMarkdown := "" in
  let imageMetadataMarkdown :=
    if truthy (title (metadata gyazoImage))
    then imageMetadataMarkdown
         ++ "### Title:" ++ LF ++ interp (title (metadata gyazoImage)) ++ LF ++ LF
    else imageMetadataMarkdown in
  let imageMetadataMarkdown :=
    if truthy (desc (metadata gyazoImage))
    then imageMetadataMarkdown
         ++ "### Description:" ++ LF ++ interp (desc (metadata gyazoImage)) ++ LF ++ LF
    else imageMetadataMarkdown in
  let imageMetadataMarkdown :=
    if truthy (app (metadata gyazoImage))
    then imageMetadataMarkdown
         ++ "### App:" ++ LF ++ interp (app (metadata gyazoImage)) ++ LF ++ LF
    else imageMetadataMarkdown in
  let imageMetadataMarkdown :=
    if truthy (meta_url (metadata gyazoImage))
    then imageMetadataMarkdown
         ++ "### URL:" ++ LF ++ interp (meta_url (metadata gyazoImage)) ++ LF ++ LF
    else imageMetadataMarkdown in
  let imageMetadataMarkdown :=
    if truthy (ocr_field description gyazoImage)
    then imageMetadataMarkdown
         ++ "### OCR:" ++ LF ++ interp (ocr_field description gyazoImage) ++ LF ++ LF
    else imageMetadataMarkdown in
  let imageMetadataMarkdown :=
    if truthy (ocr_field locale gyazoImage)
    then imageMetadataMarkdown
         ++ "### Locale:" ++ LF ++ interp (ocr_field locale gyazoImage) ++ LF ++ LF
    else imageMetadataMarkdown in
  imageMetadataMarkdown.

(** *** Reading a block back: lines and level-3 headings *)

(** [s.split("\n")] *)
Fixpoint lines (s : string) : list string :=
  match s with
  | EmptyString => [""]
  | String c r =>
      if Ascii.eqb c LF_char then "" :: lines r
      else match lines r with
           | l :: ls => String c l :: ls
           | [] => [String c ""]
           end
  end.

(** A level-3 heading is a line that opens with three hashes and a space. *)
Definition is_heading (l : string) : bool := starts_with "### " l.

Definition headings (s : string) : list string := filter is_heading (lines s).

(** The six fields of a record that can contribute a section, each with the
    heading line of its section, in the order of the source. *)
Definition fields (g : GyazoImage) : list (string * option string) :=
  [ ("### Title:", title (metadata g));
    ("### Description:", desc (metadata g));
    ("### App:", app (metadata g));
    ("### URL:", meta_url (metadata g));
    ("### OCR:", ocr_field description g);
    ("### Locale:", ocr_field locale g) ].

Definition present (f : string * option string) : bool := truthy (snd f).

(** A section: the heading line, the value, and a blank line. *)
Definition section (f : string * option string) : string :=
  fst f ++ LF ++ interp (snd f) ++ LF ++ LF.

Definition sections (g : GyazoImage) : list string :=
  map section (filter present (fields g)).

(** No line of any field value of [g] is itself a level-3 heading. *)
Definition heading_freeb (g : GyazoImage) : bool :=
  forallb (fun f => match headings (interp (snd f)) with [] => true | _ => false end)
          (fields g).

(** ** Resource URIs *)

(** [s.replace(pat, "")] with a string pattern: the first occurrence of [pat]
    in [s] is removed; [s] is returned unchanged when there is none. *)
Fixpoint replace_first (pat s : string) : string :=
  if starts_with pat s then drop (String.length pat) s
  else match s with
       | EmptyString => EmptyString
       | String c r => String c (replace_first pat r)
       end.

(** [s.includes(pat)] *)
Fixpoint includes (pat s : string) : bool :=
  starts_with pat s ||
  match s with
  | EmptyString => false
  | String _ r => includes pat r
  end.

Definition scheme_prefix : string := "gyazo-mcp:///".

(** The template literal [`gyazo-mcp:///${id}`] of the lister and of the
    search tool. *)
Definition resource_uri (id : string) : string := scheme_prefix ++ id.

(** [url.replace("gyazo-mcp:///", "")] of the reader. *)
Definition strip_prefix (uri : string) : string := replace_first scheme_prefix uri.

Record Resource := {
  res_uri : string;
  res_mimeType : string;
  res_name : string
}.

(** The mapping of the list-resources handler over the upstream records;
    [title || image_id] falls back to the identifier for a falsy title. *)
Definition resource_of (gyazoImage : GyazoImage) : Resource :=
  {| res_uri := resource_uri (image_id gyazoImage);
     res_mimeType := "image/" ++ type gyazoImage;
     res_name := if truthy (title (metadata gyazoImage))
                 then interp (title (metadata gyazoImage))
                 else image_id gyazoImage |}.

(** ** JavaScript values of tool arguments *)

(** The numbers are the integers the tool schemas declare, in the range
    where [toString] is the decimal numeral. *)
Inductive JsVal :=
| JUndefined
| JNullV
| JBoolV (b : bool)
| JNum (n : Z)
| JStr (s : string).

Definition Z_toString (n : Z) : string := NilZero.string_of_int (Z.to_int n).

Definition js_truthy (v : JsVal) : bool :=
  match v with
  | JUndefined | JNullV => false
  | JBoolV b => b
  | JNum n => negb (Z.eqb n 0)
  | JStr s => truthy (Some s)
  end.

(** [String(v)] *)
Definition js_String (v : JsVal) : string :=
  match v with
  | JUndefined => "undefined"
  | JNullV => "null"
  | JBoolV true => "true"
  | JBoolV false => "false"
  | JNum n => Z_toString n
  | JStr s => s
  end.

(** An arguments object, and the property access [args.k]. *)
Definition Arguments := list (string * JsVal).

Fixpoint prop (k : string) (args : Arguments) : JsVal :=
  match args with
  | [] => JUndefined
  | (k', v) :: rest => if String.eqb k k' then v else prop k rest
  end.

(** ** The data-URI prefix pattern of the upload tool *)

Definition in_range (lo hi : nat) (c : ascii) : bool :=
  (lo <=? nat_of_ascii c)%nat && (nat_of_ascii c <=? hi)%nat.

(** The class [\w]: ASCII letters, digits and the underscore. *)
Definition is_word (c : ascii) : bool :=
  in_range 65 90 c || in_range 97 122 c || in_range 48 57 c || Ascii.eqb c "_".

(** [(\w+)] followed by the rest of the pattern [k]: greedy, one or more word
    characters, giving characters back until [k] accepts.  [acc] is the text
    captured so far. *)
Fixpoint word_plus {R : Type} (k : string -> string -> option R)
         (acc s : string) : option R :=
  match s with
  | EmptyString => None
  | String c r =>
      if is_word c then
        match word_plus k (acc ++ String c "") r with
        | Some x => Some x
        | None => k (acc ++ String c "") r
        end
      else None
  end.

(** [s.match(/^data:image\/(\w+);base64,/)]: the capture group and the text
    after the match, or [None] when the pattern does not match. *)
Definition match_data_uri (s : string) : option (string * string) :=
  if starts_with "data:image/" s then
    word_plus
      (fun cap r => if starts_with ";base64," r then Some (cap, drop 8 r) else None)
      "" (drop 11 s)
  else None.

(** ** Base64 *)

Definition byte_of_N (n : N) : Byte.byte := byte_of_ascii (ascii_of_N n).
Definition N_of_byte (b : Byte.byte) : N := N_of_ascii (ascii_of_byte b).

(** The value of a character of the base64 alphabet; the decoder of the
    runtime takes the URL-safe characters [-] and [_] as well. *)
Definition unbase64 (c : ascii) : option N :=
  let n := N_of_ascii c in
  if in_range 65 90 c then Some (n - 65)%N
  else if in_range 97 122 c then Some (n - 71)%N
  else if in_range 48 57 c then Some (n + 4)%N
  else if Ascii.eqb c "+" || Ascii.eqb c "-" then Some 62%N
  else if Ascii.eqb c "/" || Ascii.eqb c "_" then Some 63%N
  else None.

(** The sextets of the input: decoding stops at the first [=], and a
    character outside the alphabet is skipped. *)
Fixpoint sextets (s : string) : list N :=
  match s with
  | EmptyString => []
  | String c r =>
      if Ascii.eqb c "=" then []
      else match unbase64 c with
           | Some v => v :: sextets r
           | None => sextets r
           end
  end.

Fixpoint bytes_of_sextets (l : list N) : list Byte.byte :=
  match l with
  | a :: b :: c :: d :: r =>
      byte_of_N (N.lor (N.shiftl a 2) (N.shiftr b 4))
      :: byte_of_N (N.lor (N.shiftl (N.land b 15) 4) (N.shiftr c 2))
      :: byte_of_N (N.lor (N.shiftl (N.land c 3) 6) d)
      :: bytes_of_sextets r
  | [a; b; c] =>
      [ byte_of_N (N.lor (N.shiftl a 2) (N.shiftr b 4));
        byte_of_N (N.lor (N.shiftl (N.land b 15) 4) (N.shiftr c 2)) ]
  | [a; b] => [ byte_of_N (N.lor (N.shiftl a 2) (N.shiftr b 4)) ]
  | _ => []
  end.

(** [Buffer.from(s, 'base64')] *)
Definition Buffer_from_base64 (s : string) : list Byte.byte :=
  bytes_of_sextets (sextets s).

Definition base64_char (v : N) : ascii :=
  if (v <? 26)%N then ascii_of_N (v + 65)
  else if (v <? 52)%N then ascii_of_N (v + 71)
  else if (v <? 62)%N then ascii_of_N (v - 4)
  else if (v =? 62)%N then "+"%char
  else "/"%char.

(** [Buffer.from(bytes).toString("base64")] *)
Fixpoint Buffer_toString_base64 (l : list Byte.byte) : string :=
  match l with
  | x :: y :: z :: r =>
      let a := N_of_byte x in let b := N_of_byte y in let c := N_of_byte z in
      String (base64_char (N.shiftr a 2))
        (String (base64_char (N.lor (N.shiftl (N.land a 3) 4) (N.shiftr b 4)))
           (String (base64_char (N.lor (N.shiftl (N.land b 15) 2) (N.shiftr c 6)))
              (String (base64_char (N.land c 63)) (Buffer_toString_base64 r))))
  | [x; y] =>
      let a := N_of_byte x in let b := N_of_byte y in
      String (base64_char (N.shiftr a 2))
        (String (base64_char (N.lor (N.shiftl (N.land a 3) 4) (N.shiftr b 4)))
           (String (base64_char (N.shiftl (N.land b 15) 2)) "="))
  | [x] =>
      let a := N_of_byte x in
      String (base64_char (N.shiftr a 2))
        (String (base64_char (N.shiftl (N.land a 3) 4)) "==")
  | [] => ""
  end.

(** ** Parsing the [imageData] argument (upload tool) *)

Record ParsedImage := {
  imageType : string;
  imageBuffer : list Byte.byte
}.

(** The statements of the upload branch from [base64Data] to [imageBuffer]. *)
Definition parseImageData (base64Data : string) : ParsedImage :=
  let base64Image :=
    match match_data_uri base64Data with
    | Some (_, rest) => rest
    | None => base64Data
    end in
  let imageType := "png" in
  let typeMatch := match_data_uri base64Data in
  let imageType :=
    match typeMatch with
    | Some (g1, _) => if truthy (Some g1) then g1 else imageType
    | None => imageType
    end in
  {| imageType := imageType; imageBuffer := Buffer_from_base64 base64Image |}.

(** What the prose calls a match of the prefix pattern: the input is
    ["data:image/"], a non-empty run of word characters, [";base64,"], and
    any remainder. *)
Definition all_word (s : string) : bool :=
  forallb is_word (list_ascii_of_string s).

Definition is_data_uri (s subtype payload : string) : Prop :=
  s = "data:image/" ++ subtype ++ ";base64," ++ payload
  /\ subtype <> "" /\ all_word subtype = true.

(** ** JSON texts *)

Local Set Warnings "-register-all".

Inductive Json :=
| JNull
| JBool (b : bool)
| JString (s : string)
| JArray (l : list Json)
| JObject (l : list (string * Json)).

Definition DQ_char : ascii := ascii_of_nat 34.
Definition BS_char : ascii := ascii_of_nat 92.
Definition DQ : string := String DQ_char "".

Definition hex_digit (n : N) : ascii :=
  if (n <? 10)%N then ascii_of_N (n + 48) else ascii_of_N (n + 87).

(** The escape of one character inside a JSON string (QuoteJSONString): the
    short escapes, [\u00xx] for the other control characters, and the
    character itself otherwise. *)
Definition quote_char (c : ascii) : string :=
  let n := N_of_ascii c in
  if (n =? 8)%N then String BS_char "b"
  else if (n =? 9)%N then String BS_char "t"
  else if (n =? 10)%N then String BS_char "n"
  else if (n =? 12)%N then String BS_char "f"
  else if (n =? 13)%N then String BS_char "r"
  else if (n =? 34)%N then String BS_char DQ
  else if (n =? 92)%N then String BS_char (String BS_char "")
  else if (n <? 32)%N then
    String BS_char
      (String "u" (String "0" (String "0"
         (String (hex_digit (N.shiftr n 4)) (String (hex_digit (N.land n 15)) "")))))
  else String c "".

Fixpoint quote_body (s : string) : string :=
  match s with
  | EmptyString => ""
  | String c r => quote_char c ++ quote_body r
  end.

Definition QuoteJSONString (s : string) : string := DQ ++ quote_body s ++ DQ.

(** The indentation unit of [JSON.stringify(v, null, 2)]. *)
Definition gap : string := "  ".

(** [JSON.stringify(v, null, 2)] at the current indentation [indent]
    (SerializeJSONProperty, SerializeJSONArray and SerializeJSONObject with a
    non-empty gap). *)
Fixpoint SerializeJSON (indent : string) (v : Json) : string :=
  match v with
  | JNull => "null"
  | JBool true => "true"
  | JBool false => "false"
  | JString s => QuoteJSONString s
  | JArray [] => "[]"
  | JArray l =>
      let stepback := indent in
      let indent := indent ++ gap in
      "[" ++ LF ++ indent
      ++ String.concat ("," ++ LF ++ indent) (map (SerializeJSON indent) l)
      ++ LF ++ stepback ++ "]"
  | JObject [] => "{}"
  | JObject l =>
      let stepback := indent in
      let indent := indent ++ gap in
      "{" ++ LF ++ indent
      ++ String.concat ("," ++ LF ++ indent)
           (map (fun kv => QuoteJSONString (fst kv) ++ ": " ++ SerializeJSON indent (snd kv)) l)
      ++ LF ++ stepback ++ "}"
  end.

Definition JSON_stringify_2 (v : Json) : string := SerializeJSON "" v.

(** *** Reading a JSON text

    A reader for the JSON grammar restricted to [null], booleans, strings,
    arrays and objects, with insignificant whitespace; it is what "parsed as
    JSON" means for the texts this server emits. *)

Definition is_ws (c : ascii) : bool :=
  Ascii.eqb c " " || Ascii.eqb c LF_char
  || Ascii.eqb c (ascii_of_nat 9) || Ascii.eqb c (ascii_of_nat 13).

Fixpoint skip_ws (s : string) : string :=
  match s with
  | EmptyString => EmptyString
  | String c r => if is_ws c then skip_ws r else s
  end.

Definition hex_val (c : ascii) : option N :=
  let n := N_of_ascii c in
  if in_range 48 57 c then Some (n - 48)%N
  else if in_range 97 102 c then Some (n - 87)%N
  else if in_range 65 70 c then Some (n - 55)%N
  else None.

Definition cons_char (c : ascii) (r : option (string * string)) : option (string * string) :=
  match r with
  | Some (x, rest) => Some (String c x, rest)
  | None => None
  end.

(** The characters of a string literal after its opening quote, up to and
    including the closing quote. *)
Fixpoint parse_chars (s : string) : option (string * string) :=
  match s with
  | EmptyString => None
  | String c r =>
      if Ascii.eqb c DQ_char then Some ("", r)
      else if Ascii.eqb c BS_char then
        match r with
        | EmptyString => None
        | String e r1 =>
            if Ascii.eqb e "b" then cons_char (ascii_of_nat 8) (parse_chars r1)
            else if Ascii.eqb e "t" then cons_char (ascii_of_nat 9) (parse_chars r1)
            else if Ascii.eqb e "n" then cons_char (ascii_of_nat 10) (parse_chars r1)
            else if Ascii.eqb e "f" then cons_char (ascii_of_nat 12) (parse_chars r1)
            else if Ascii.eqb e "r" then cons_char (ascii_of_nat 13) (parse_chars r1)
            else if Ascii.eqb e DQ_char then cons_char DQ_char (parse_chars r1)
            else if Ascii.eqb e BS_char then cons_char BS_char (parse_chars r1)
            else if Ascii.eqb e "/" then cons_char "/" (parse_chars r1)
            else if Ascii.eqb e "u" then
              match r1 with
              | String h1 (String h2 (String h3 (String h4 r2))) =>
                  match hex_val h1, hex_val h2, hex_val h3, hex_val h4 with
                  | Some 0%N, Some 0%N, Some a, Some b =>
                      cons_char (ascii_of_N (16 * a + b)) (parse_chars r2)
                  | _, _, _, _ => None
                  end
              | _ => None
              end
            else None
        end
      else if (nat_of_ascii c <? 32)%nat then None
      else cons_char c (parse_chars r)
  end.

Fixpoint parse_value (fuel : nat) (s : string) : option (Json * string) :=
  match fuel with
  | O => None
  | S fuel =>
      match skip_ws s with
      | EmptyString => None
      | String c r =>
          if Ascii.eqb c DQ_char then
            match parse_chars r with
            | Some (x, rest) => Some (JString x, rest)
            | None => None
            end
          else if Ascii.eqb c "[" then
            match skip_ws r with
            | String c' rest =>
                if Ascii.eqb c' "]" then Some (JArray [], rest)
                else match parse_elements fuel r with
                     | Some (l, rest') => Some (JArray l, rest')
                     | None => None
                     end
            | EmptyString => None
            end
          else if Ascii.eqb c "{" then
            match skip_ws r with
            | String c' rest =>
                if Ascii.eqb c' "}" then Some (JObject [], rest)
                else match parse_members fuel r with
                     | Some (l, rest') => Some (JObject l, rest')
                     | None => None
                     end
            | EmptyString => None
            end
          else if starts_with "null" (String c r) then Some (JNull, drop 4 (String c r))
          else if starts_with "true" (String c r) then Some (JBool true, drop 4 (String c r))
          else if starts_with "false" (String c r) then Some (JBool false, drop 5 (String c r))
          else None
      end
  end
with parse_elements (fuel : nat) (s : string) : option (list Json * string) :=
  match fuel with
  | O => None
  | S fuel =>
      match parse_value fuel s with
      | Some (v, rest) =>
          match skip_ws rest with
          | String c rest' =>
              if Ascii.eqb c "," then
                match parse_elements fuel rest' with
                | Some (vs, rest'') => Some (v :: vs, rest'')
                | None => None
                end
              else if Ascii.eqb c "]" then Some ([v], rest')
              else None
          | EmptyString => None
          end
      | None => None
      end
  end
with parse_members (fuel : nat) (s : string) : option (list (string * Json) * string) :=
  match fuel with
  | O => None
  | S fuel =>
      match skip_ws s with
      | String q r =>
          if Ascii.eqb q DQ_char then
            match parse_chars r with
            | Some (k, rest) =>
                match skip_ws rest with
                | String colon rest1 =>
                    if Ascii.eqb colon ":" then
                      match parse_value fuel rest1 with
                      | Some (v, rest2) =>
                          match skip_ws rest2 with
                          | String c rest3 =>
                              if Ascii.eqb c "," then
                                match parse_members fuel rest3 with
                                | Some (kvs, rest4) => Some ((k, v) :: kvs, rest4)
                                | None => None
                                end
                              else if Ascii.eqb c "}" then Some ([(k, v)], rest3)
                              else None
                          | EmptyString => None
                          end
                      | None => None
                      end
                    else None
                | EmptyString => None
                end
            | None => None
            end
          else None
      | EmptyString => None
      end
  end.

(** The value of a whole JSON text: one value, then only whitespace. *)
Definition JSON_parse (s : string) : option Json :=
  match parse_value (S (String.length s)) s with
  | Some (v, rest) =>
      match skip_ws rest with
      | EmptyString => Some v
      | String _ _ => None
      end
  | None => None
  end.

(** ** The upstream service and the handler monad *)

(** A thrown value: an [Error] carrying a message, or anything else. *)
Inductive Thrown :=
| ErrorObj (message : string)
| NonError.

Inductive Fetched (A : Type) :=
| Resolved (a : A)
| Rejected (e : Thrown).
Arguments Resolved {A} a.
Arguments Rejected {A} e.

Inductive Outcome (A : Type) :=
| Returned (a : A)
| Threw (e : Thrown).
Arguments Returned {A} a.
Arguments Threw {A} e.

Inductive FormValue :=
| FormText (s : string)
| FormFile (bytes : list Byte.byte) (fileName fileType : string).

(** An outbound call: a GET of an endpoint with its query parameters, a GET
    of a bare URL (the image bytes), or a multipart POST. *)
Inductive Request :=
| Get (endpoint : string) (params : list (string * string))
| GetUrl (u : string)
| Post (endpoint : string) (form : list (string * FormValue)).

Record UploadResult := {
  up_permalink_url : string;
  up_url : string;
  up_image_id : string
}.

Record UploadResponse := {
  ok : bool;
  status : Z;
  json : Fetched UploadResult
}.

(** Everything outside the handlers: the credential, the clock, and the
    answer of the upstream service to each call, read at the type the
    handler gives it.  [None] is a body that holds no record: a falsy JSON
    value, [null] above all.  A rejected call is a network failure or a body
    that is not JSON. *)
Record World := {
  GYAZO_ACCESS_TOKEN : string;
  Date_now : Z;
  fetch_images : Request -> Fetched (option (list GyazoImage));
  fetch_image : Request -> Fetched (option GyazoImage);
  fetch_search : Request -> Fetched (option (list Search.SearchedGyazoImage));
  fetch_blob : Request -> Fetched (list Byte.byte);
  fetch_upload : Request -> Fetched UploadResponse
}.

(** A handler: reads the world, extends the log of outbound calls, and
    returns or throws. *)
Definition M (A : Type) : Type :=
  World -> list Request -> list Request * Outcome A.

Definition ret {A} (a : A) : M A := fun _ log => (log, Returned a).

Definition bind {A B} (m : M A) (k : A -> M B) : M B :=
  fun w log =>
    match m w log with
    | (log', Returned a) => k a w log'
    | (log', Threw e) => (log', Threw e)
    end.

Definition throw {A} (e : Thrown) : M A := fun _ log => (log, Threw e).

Definition try_catch {A} (m : M A) (handler : Thrown -> M A) : M A :=
  fun w log =>
    match m w log with
    | (log', Returned a) => (log', Returned a)
    | (log', Threw e) => handler e w log'
    end.

Definition ask : M World := fun w log => (log, Returned w).

(** [await fetch(...)] and the reading of the body, as one logged call. *)
Definition fetch {A} (answer : World -> Request -> Fetched A) (r : Request) : M A :=
  fun w log =>
    ((log ++ [r])%list,
     match answer w r with
     | Resolved a => Returned a
     | Rejected e => Threw e
     end).

Notation "x <- m ;; k" := (bind m (fun x => k))
  (at level 61, m at next level, right associativity).

Definition run {A} (m : M A) (w : World) : list Request * Outcome A := m w [].

Definition Error {A} (message : string) : M A := throw (ErrorObj message).

(** ** Handlers *)

Inductive ResourceContent :=
| BlobContent (uri mimeType blob : string)
| TextContent (uri mimeType text : string).

Inductive ToolContent :=
| TextPart (text : string)
| ImagePart (data mimeType : string).

(** Handler of [ListResourcesRequestSchema]. *)
Definition listResources : M (list Resource) :=
  w <- ask ;;
  gyazoImages <- fetch fetch_images
    (Get "https://api.gyazo.com/api/images"
         [("access_token", GYAZO_ACCESS_TOKEN w); ("page", "1"); ("per_page", "10")]) ;;
  match gyazoImages with
  | Some gyazoImages => ret (map resource_of gyazoImages)
  | None => Error "Cannot read properties of null (reading 'map')"
  end.

(** Handler of [ReadResourceRequestSchema]. *)
Definition readResource (uri : string) : M (list ResourceContent) :=
  try_catch
    (let url_ := uri in
     let id := strip_prefix url_ in
     w <- ask ;;
     gyazoImage <- fetch fetch_image
       (Get ("https://api.gyazo.com/api/images/" ++ id)
            [("access_token", GYAZO_ACCESS_TOKEN w)]) ;;
     match gyazoImage with
     | None => Error ("Image " ++ id ++ " not found")
     | Some gyazoImage =>
         let imageUrl := url gyazoImage in
         imageBuffer <- fetch fetch_blob (GetUrl imageUrl) ;;
         let imageBase64 := Buffer_toString_base64 imageBuffer in
         let imageMetadataMarkdown := getImageMetadataMarkdown gyazoImage in
         ret [ BlobContent url_ ("image/" ++ type gyazoImage) imageBase64;
               TextContent url_ "text/plain" imageMetadataMarkdown ]
     end)
    (fun error =>
       match error with
       | ErrorObj message => Error message
       | NonError => Error "An unknown error occurred"
       end).

(** The object the search tool builds for one upstream record. *)
Definition search_content (image : Search.SearchedGyazoImage) : Json :=
  JObject
    [ ("uri", JString (resource_uri (Search.image_id image)));
      ("mimeType", JString ("image/" ++ Search.type image));
      ("permalink_url", JString (Search.permalink_url image));
      ("url", JString (Search.url image));
      ("thumb_url", JString (Search.thumb_url image));
      ("created_at", JString (Search.created_at image));
      ("alt_text", JString (Search.alt_text image)) ].

Definition gyazo_search (arguments : option Arguments) : M (list ToolContent) :=
  match arguments with
  | None => Error "Invalid search arguments: query is required and must be a string"
  | Some arguments =>
      match prop "query" arguments with
      | JStr query =>
          w <- ask ;;
          let page := match prop "page" arguments with JNum n => n | _ => 1%Z end in
          let per := match prop "per" arguments with JNum n => n | _ => 20%Z end in
          images <- fetch fetch_search
            (Get "https://api.gyazo.com/api/search"
                 [ ("access_token", GYAZO_ACCESS_TOKEN w);
                   ("query", query);
                   ("page", Z_toString page);
                   ("per", Z_toString per) ]) ;;
          match images with
          | None | Some [] => ret [TextPart "No images found"]
          | Some images =>
              let contents := map search_content images in
              ret [TextPart (JSON_stringify_2 (JArray contents))]
          end
      | _ => Error "Invalid search arguments: query is required and must be a string"
      end
  end.

Definition gyazo_latest_image : M (list ToolContent) :=
  w <- ask ;;
  images <- fetch fetch_images
    (Get "https://api.gyazo.com/api/images"
         [("access_token", GYAZO_ACCESS_TOKEN w); ("page", "1"); ("per_page", "1")]) ;;
  match images with
  | None | Some [] => Error "Image not found"
  | Some (image :: _) =>
      let imageUrl := url image in
      imageBuffer <- fetch fetch_blob (GetUrl imageUrl) ;;
      let imageBase64 := Buffer_toString_base64 imageBuffer in
      ret [ ImagePart imageBase64 ("image/" ++ type image);
            TextPart (getImageMetadataMarkdown image) ]
  end.

(** [if (args.k) formData.append(name, String(args.k))] *)
Definition append_if (name : string) (v : JsVal) (form : list (string * FormValue))
  : list (string * FormValue) :=
  if js_truthy v then (form ++ [(name, FormText (js_String v))])%list else form.

Definition gyazo_upload (arguments : option Arguments) : M (list ToolContent) :=
  match arguments with
  | None => Error "Invalid upload arguments: imageData is required and must be a string"
  | Some arguments =>
      match prop "imageData" arguments with
      | JStr base64Data =>
          try_catch
            (w <- ask ;;
             let parsed := parseImageData base64Data in
             let fileName :=
               "screenshot_" ++ Z_toString (Date_now w) ++ "." ++ imageType parsed in
             let file :=
               FormFile (imageBuffer parsed) fileName ("image/" ++ imageType parsed) in
             let formData := [("imagedata", file)] in
             let formData := append_if "title" (prop "title" arguments) formData in
             let formData := append_if "desc" (prop "description" arguments) formData in
             let formData := append_if "referer_url" (prop "refererUrl" arguments) formData in
             let formData := append_if "app" (prop "app" arguments) formData in
             let formData :=
               (formData ++ [("access_token", FormText (GYAZO_ACCESS_TOKEN w))])%list in
             response <- fetch fetch_upload
               (Post "https://upload.gyazo.com/api/upload" formData) ;;
             if negb (ok response) then
               Error ("Upload failed with status: " ++ Z_toString (status response))
             else
               match json response with
               | Rejected e => throw e
               | Resolved result =>
                   ret [ TextPart
                           ("Image successfully uploaded to Gyazo!" ++ LF ++ LF
                            ++ "Permalink URL: " ++ up_permalink_url result ++ LF
                            ++ "Image URL: " ++ up_url result ++ LF
                            ++ "Image ID: " ++ up_image_id result) ]
               end)
            (fun error =>
               match error with
               | ErrorObj message => Error ("Upload failed: " ++ message)
               | NonError => Error "Upload failed with an unknown error"
               end)
      | _ => Error "Invalid upload arguments: imageData is required and must be a string"
      end
  end.

(** Handler of [CallToolRequestSchema]. *)
Definition callTool (name : string) (arguments : option Arguments)
  : M (list ToolContent) :=
  if String.eqb name "gyazo_search" then gyazo_search arguments
  else if String.eqb name "gyazo_latest_image" then gyazo_latest_image
  else if String.eqb name "gyazo_upload" then gyazo_upload arguments
  else Error ("Tool " ++ name ++ " not found").

(** The outbound calls of a run, and those among them that fetch image
    bytes. *)
Definition calls {A} (r : list Request * Outcome A) : list Request := fst r.

Definition is_bytes_fetch (r : Request) : bool :=
  match r with
  | GetUrl _ => true
  | _ => false
  end.

(** ** Definitions used to state the properties *)

(** Concatenation of a list of sections. *)
Definition flatten (l : list string) : string := fold_right String.append "" l.

(** The chain of conditional appends, as a left fold over the fields. *)
Definition add_section (md : string) (f : string * option string) : string :=
  if present f then md ++ section f else md.

(** A heading line of the source: it is a level-3 heading and one line. *)
Definition heading_line (h : string) : Prop := headings h = [h].

(** A record whose title carries a heading line of its own. *)
Definition injected_title : GyazoImage :=
  {| image_id := "a"; permalink_url := ""; thumb_url := ""; url := "";
     type := "png"; created_at := "";
     metadata := {| app := None; title := Some "### App:";
                    meta_url := None; desc := Some "" |};
     ocr := None |}.

Definition sample_image : GyazoImage :=
  {| image_id := "8980c5"; permalink_url := "http://gyazo.com/8980c5";
     thumb_url := ""; url := "https://i.gyazo.com/8980c5.png";
     type := "png"; created_at := "2014-05-21";
     metadata := {| app := None; title := Some "Gyazo";
                    meta_url := Some "https://gyazo.com"; desc := Some "" |};
     ocr := Some {| locale := Some "en"; description := Some ("Gyazo" ++ LF) |} |}.

(** The outbound calls of the handlers, by name. *)
Definition images_request (w : World) (per_page : string) : Request :=
  Get "https://api.gyazo.com/api/images"
      [("access_token", GYAZO_ACCESS_TOKEN w); ("page", "1"); ("per_page", per_page)].

Definition image_request (w : World) (id : string) : Request :=
  Get ("https://api.gyazo.com/api/images/" ++ id)
      [("access_token", GYAZO_ACCESS_TOKEN w)].

Definition search_request (w : World) (query : string) (page per : Z) : Request :=
  Get "https://api.gyazo.com/api/search"
      [ ("access_token", GYAZO_ACCESS_TOKEN w); ("query", query);
        ("page", Z_toString page); ("per", Z_toString per) ].

(** [page] and [per] as the search tool reads them from its arguments. *)
Definition page_of (a : Arguments) : Z :=
  match prop "page" a with JNum n => n | _ => 1%Z end.

Definition per_of (a : Arguments) : Z :=
  match prop "per" a with JNum n => n | _ => 20%Z end.

Definition sample_hit : Search.SearchedGyazoImage :=
  {| Search.image_id := "27a9dc";
     Search.permalink_url := "https://gyazo.com/27a9dc";
     Search.url := "https://i.gyazo.com/27a9dc.jpg";
     Search.access_policy := None;
     Search.type := "jpg";
     Search.thumb_url := "https://thumb.gyazo.com/thumb/27a9dc.jpg";
     Search.created_at := "2018-07-24T07:33:24.771Z";
     Search.alt_text := "a " ++ DQ ++ "quoted" ++ DQ ++ " cat" |}.

Definition sample_upload : UploadResponse :=
  {| ok := true; status := 200;
     json := Resolved {| up_permalink_url := "https://gyazo.com/8980c5";
                         up_url := "https://i.gyazo.com/8980c5.png";
                         up_image_id := "8980c5" |} |}.

(** An upstream that holds one image and finds one image. *)
Definition sample_world : World :=
  {| GYAZO_ACCESS_TOKEN := "token";
     Date_now := 1700000000000;
     fetch_images := fun _ => Resolved (Some [sample_image]);
     fetch_image := fun _ => Resolved (Some sample_image);
     fetch_search := fun _ => Resolved (Some [sample_hit; sample_hit]);
     fetch_blob := fun _ => Resolved (list_byte_of_string "ABC");
     fetch_upload := fun _ => Resolved sample_upload |}.

(** An upstream that holds nothing. *)
Definition empty_world : World :=
  {| GYAZO_ACCESS_TOKEN := "token";
     Date_now := 1700000000000;
     fetch_images := fun _ => Resolved (Some []);
     fetch_image := fun _ => Resolved None;
     fetch_search := fun _ => Resolved None;
     fetch_blob := fun _ => Rejected (ErrorObj "fetch failed");
     fetch_upload := fun _ => Rejected (ErrorObj "fetch failed") |}.

(** The rest of the prefix pattern after the capture group: the literal
    [;base64,], then anything. *)
Definition after_subtype (cap r : string) : option (string * string) :=
  if starts_with ";base64," r then Some (cap, drop 8 r) else None.

(** The text of [s] up to its first semicolon. *)
Fixpoint until_semicolon (s : string) : option string :=
  match s with
  | EmptyString => None
  | String c r =>
      if Ascii.eqb c ";" then Some ""
      else match until_semicolon r with
           | Some x => Some (String c x)
           | None => None
           end
  end.

(** The subtype a data URI of an image declares: what stands between
    ["data:image/"] and the first semicolon. *)
Definition data_uri_subtype (s : string) : option string :=
  if starts_with "data:image/" s then until_semicolon (drop 11 s) else None.

(** A text of whitespace only, such as an indentation. *)
Definition all_ws (s : string) : bool := forallb is_ws (list_ascii_of_string s).

(** The number of nodes of a JSON value, list cells included. *)
Fixpoint size (v : Json) : nat :=
  match v with
  | JArray l => S (list_sum (map (fun x => S (size x)) l))
  | JObject l => S (list_sum (map (fun kv => S (size (snd kv))) l))
  | _ => 1
  end.

(** A character that can open the text of a value. *)
Definition value_start (c : ascii) : bool :=
  negb (is_ws c) && negb (Ascii.eqb c "]") && negb (Ascii.eqb c "}")
  && negb (Ascii.eqb c ",").

(** Reading back the text of [v], at any indentation, before any text, and
    with any fuel that covers its size, gives [v] and leaves what follows. *)
Definition reads_back (v : Json) : Prop :=
  forall (indent rest : string) (fuel : nat),
    all_ws indent = true ->
    size v <= fuel ->
    parse_value fuel (SerializeJSON indent v ++ rest) = Some (v, rest).

(** ** The tool catalogue *)

(** The schema of one property of a tool's input, with the facets the
    source uses. *)
Record PropertySchema := {
  ps_type : string;
  ps_description : option string;
  ps_const : option string;
  ps_minimum : option Z;
  ps_maximum : option Z;
  ps_default : option Z
}.

Record Tool := {
  tool_name : string;
  tool_description : string;
  tool_properties : list (string * PropertySchema);
  tool_required : list string
}.

Definition string_property (d : string) : PropertySchema :=
  {| ps_type := "string"; ps_description := Some d; ps_const := None;
     ps_minimum := None; ps_maximum := None; ps_default := None |}.

(** Handler of [ListToolsRequestSchema]: a fixed list, no upstream call. *)
Definition listTools : M (list Tool) :=
  ret
    [ {| tool_name := "gyazo_latest_image";
         tool_description := "Fetch latest image content and metadata from Gyazo";
         tool_properties :=
           [ ("name",
              {| ps_type := "string"; ps_description := None;
                 ps_const := Some "gyazo_latest_image";
                 ps_minimum := None; ps_maximum := None; ps_default := None |}) ];
         tool_required := ["name"] |};
      {| tool_name := "gyazo_search";
         tool_description := "Search through user's saved Gyazo images";
         tool_properties :=
           [ ("query", string_property "Search query (max length: 200 characters)");
             ("page",
              {| ps_type := "integer";
                 ps_description := Some "Page number for pagination";
                 ps_const := None;
                 ps_minimum := Some 1%Z; ps_maximum := None; ps_default := Some 1%Z |});
             ("per",
              {| ps_type := "integer";
                 ps_description := Some "Number of results per page (max: 100)";
                 ps_const := None;
                 ps_minimum := Some 1%Z; ps_maximum := Some 100%Z;
                 ps_default := Some 20%Z |}) ];
         tool_required := ["query"] |};
      {| tool_name := "gyazo_upload";
         tool_description := "Upload an image to Gyazo";
         tool_properties :=
           [ ("imageData", string_property "Base64 encoded image data");
             ("title", string_property "Title for the image (optional)");
             ("description", string_property "Description for the image (optional)");
             ("refererUrl",
              string_property "URL where the image was captured from (optional)");
             ("app",
              string_property "Application name that captured the image (optional)") ];
         tool_required := ["imageData"] |} ].

(** ** Further definitions used to state properties *)

(** The value a run returns, if it returns. *)
Definition returned {A} (r : list Request * Outcome A) : option A :=
  match snd r with
  | Returned a => Some a
  | Threw _ => None
  end.

(** The tools a client is told about. *)
Definition catalogue (w : World) : list Tool :=
  match returned (run listTools w) with
  | Some tools => tools
  | None => []
  end.

(** The default the catalogue declares for property [key] of tool [name]. *)
Definition declared_default (w : World) (name key : string) : option Z :=
  match find (fun t => String.eqb (tool_name t) name) (catalogue w) with
  | Some t =>
      match find (fun p => String.eqb (fst p) key) (tool_properties t) with
      | Some p => ps_default (snd p)
      | None => None
      end
  | None => None
  end.


(** The optional parts of the upload form: for each argument that is truthy,
    its text under the name of the upload endpoint, in the order of the
    source. *)
Definition optional_parts (a : Arguments) : list (string * FormValue) :=
  flat_map
    (fun kn : string * string =>
       if js_truthy (prop (fst kn) a)
       then [(snd kn, FormText (js_String (prop (fst kn) a)))]
       else [])
    [ ("title", "title"); ("description", "desc");
      ("refererUrl", "referer_url"); ("app", "app") ].

(** The one call of the upload tool for image data [s]. *)
Definition upload_request (w : World) (a : Arguments) (s : string) : Request :=
  Post "https://upload.gyazo.com/api/upload"
    (("imagedata",
      FormFile (imageBuffer (parseImageData s))
        ("screenshot_" ++ Z_toString (Date_now w) ++ "." ++ imageType (parseImageData s))
        ("image/" ++ imageType (parseImageData s)))
       :: optional_parts a
       ++ [("access_token", FormText (GYAZO_ACCESS_TOKEN w))])%list.

(** The text the upload tool returns for an upstream result. *)
Definition upload_summary (result : UploadResult) : string :=
  "Image successfully uploaded to Gyazo!" ++ LF ++ LF
  ++ "Permalink URL: " ++ up_permalink_url result ++ LF
  ++ "Image URL: " ++ up_url result ++ LF
  ++ "Image ID: " ++ up_image_id result.

(** Exhaustive tests over the booleans and over the bytes. *)
Definition all_bool (f : bool -> bool) : bool := f true && f false.

Definition all_byte (f : Byte.byte -> bool) : bool :=
  all_bool (fun b0 => all_bool (fun b1 => all_bool (fun b2 => all_bool (fun b3 =>
  all_bool (fun b4 => all_bool (fun b5 => all_bool (fun b6 => all_bool (fun b7 =>
    f (Byte.of_bits (b0, (b1, (b2, (b3, (b4, (b5, (b6, b7)))))))))))))))).

(** The four sextets of three bytes, as [toString("base64")] cuts them. *)
Definition sextet0 (x : Byte.byte) : N := N.shiftr (N_of_byte x) 2.

Definition sextet1 (x y : Byte.byte) : N :=
  N.lor (N.shiftl (N.land (N_of_byte x) 3) 4) (N.shiftr (N_of_byte y) 4).

Definition sextet2 (y z : Byte.byte) : N :=
  N.lor (N.shiftl (N.land (N_of_byte y) 15) 2) (N.shiftr (N_of_byte z) 6).

Definition sextet3 (z : Byte.byte) : N := N.land (N_of_byte z) 63.

(** A character of a base64 text decodes to sextet [v]. *)
Definition decodes_to (c : ascii) (v : N) : bool :=
  negb (Ascii.eqb c "=")
  && match unbase64 c with
     | Some v' => N.eqb v' v
     | None => false
     end.

(** An upstream whose every call fails with a value that is not an [Error]. *)
Definition broken_world : World :=
  {| GYAZO_ACCESS_TOKEN := "token";
     Date_now := 1700000000000;
     fetch_images := fun _ => Rejected NonError;
     fetch_image := fun _ => Rejected NonError;
     fetch_search := fun _ => Rejected NonError;
     fetch_blob := fun _ => Rejected NonError;
     fetch_upload := fun _ => Rejected NonError |}.

(** An upstream that refuses uploads with status 403. *)
Definition refusing_world : World :=
  {| GYAZO_ACCESS_TOKEN := "token";
     Date_now := 1700000000000;
     fetch_images := fun _ => Resolved (Some [sample_image; injected_title]);
     fetch_image := fun _ => Resolved (Some sample_image);
     fetch_search := fun _ => Resolved (Some [sample_hit]);
     fetch_blob := fun _ => Rejected (ErrorObj "fetch failed");
     fetch_upload := fun _ =>
       Resolved {| ok := false; status := 403;
                   json := Rejected (ErrorObj "Unexpected end of JSON input") |} |}.

(** What the upload tool makes of the answer to its call. *)
Definition upload_outcome (answer : Fetched UploadResponse) : Outcome (list ToolContent) :=
  match answer with
  | Resolved response =>
      if negb (ok response) then
        Threw (ErrorObj ("Upload failed: " ++ "Upload failed with status: "
                         ++ Z_toString (status response)))
      else
        match json response with
        | Resolved result => Returned [TextPart (upload_summary result)]
        | Rejected (ErrorObj m) => Threw (ErrorObj ("Upload failed: " ++ m))
        | Rejected NonError => Threw (ErrorObj "Upload failed with an unknown error")
        end
  | Rejected (ErrorObj m) => Threw (ErrorObj ("Upload failed: " ++ m))
  | Rejected NonError => Threw (ErrorObj "Upload failed with an unknown error")
  end.

(** * Properties *)

(** ** Strings *)

Lemma append_assoc (a b c : string) : (a ++ b) ++ c = a ++ (b ++ c).
Proof.
  induction a as [|x a IH]; simpl.
  - reflexivity.
  - now rewrite IH.
Qed.

Lemma append_nil_r (a : string) : a ++ "" = a.
Proof.
  induction a as [|x a IH]; simpl; [reflexivity | now rewrite IH].
Qed.

Lemma length_append (a b : string) :
  String.length (a ++ b) = String.length a + String.length b.
Proof.
  induction a as [|x a IH]; simpl; [reflexivity | now rewrite IH].
Qed.

Lemma starts_with_append (p s : string) : starts_with p (p ++ s) = true.
Proof.
  induction p as [|x p IH]; simpl.
  - reflexivity.
  - now rewrite Ascii.eqb_refl, IH.
Qed.

Lemma drop_append (p s : string) : drop (String.length p) (p ++ s) = s.
Proof.
  induction p as [|x p IH]; simpl; [reflexivity | exact IH].
Qed.

Lemma starts_with_inv (p s : string) :
  starts_with p s = true -> s = p ++ drop (String.length p) s.
Proof.
  revert s; induction p as [|x p IH]; intros s H; simpl in *.
  - reflexivity.
  - destruct s as [|y s]; [discriminate|].
    apply andb_true_iff in H as [Hxy Hp].
    apply Ascii.eqb_eq in Hxy; subst y.
    f_equal. now apply IH.
Qed.

(** ** The Markdown metadata block *)

Lemma flatten_app (l1 l2 : list string) :
  flatten (l1 ++ l2) = flatten l1 ++ flatten l2.
Proof.
  induction l1 as [|x l1 IH]; simpl.
  - reflexivity.
  - now rewrite IH, append_assoc.
Qed.

Lemma markdown_fold (g : GyazoImage) :
  getImageMetadataMarkdown g = fold_left add_section (fields g) "".
Proof. reflexivity. Qed.

Lemma fold_add_section (fs : list (string * option string)) (md : string) :
  fold_left add_section fs md = md ++ flatten (map section (filter present fs)).
Proof.
  revert md; induction fs as [|f fs IH]; intros md; simpl.
  - now rewrite append_nil_r.
  - rewrite IH. unfold add_section.
    destruct (present f); simpl.
    + now rewrite append_assoc.
    + reflexivity.
Qed.

Lemma markdown_sections (g : GyazoImage) :
  getImageMetadataMarkdown g = flatten (sections g).
Proof.
  rewrite markdown_fold, fold_add_section. reflexivity.
Qed.

Lemma lines_nonempty (s : string) : lines s <> [].
Proof.
  destruct s as [|c r]; simpl.
  - discriminate.
  - destruct (Ascii.eqb c LF_char); [discriminate|].
    destruct (lines r); discriminate.
Qed.

Lemma lines_append_LF (a b : string) :
  lines (a ++ LF ++ b) = (lines a ++ lines b)%list.
Proof.
  induction a as [|c a IH]; simpl.
  - reflexivity.
  - destruct (Ascii.eqb c LF_char).
    + simpl in IH. now rewrite IH.
    + simpl in IH. rewrite IH.
      destruct (lines a) as [|l ls] eqn:E.
      * now apply lines_nonempty in E.
      * reflexivity.
Qed.

Lemma headings_append_LF (a b : string) :
  headings (a ++ LF ++ b) = (headings a ++ headings b)%list.
Proof.
  unfold headings. now rewrite lines_append_LF, filter_app.
Qed.

Lemma headings_section (f : string * option string) (rest : string) :
  heading_line (fst f) ->
  headings (interp (snd f)) = [] ->
  headings (section f ++ rest) = fst f :: headings rest.
Proof.
  intros Hh Hv. unfold section.
  rewrite !append_assoc.
  rewrite headings_append_LF, Hh.
  rewrite headings_append_LF, Hv.
  change (LF ++ rest) with ("" ++ LF ++ rest).
  rewrite headings_append_LF. reflexivity.
Qed.

Lemma headings_flatten_sections (fs : list (string * option string)) :
  Forall (fun f => heading_line (fst f)) fs ->
  Forall (fun f => headings (interp (snd f)) = []) fs ->
  headings (flatten (map section fs)) = map fst fs.
Proof.
  induction fs as [|f fs IH]; intros Hh Hv; simpl.
  - reflexivity.
  - inversion Hh; inversion Hv; subst.
    rewrite headings_section by assumption.
    now rewrite IH.
Qed.

Lemma fields_heading_lines (g : GyazoImage) :
  Forall (fun f => heading_line (fst f)) (fields g).
Proof.
  unfold fields. repeat constructor.
Qed.

Lemma heading_freeb_Forall (g : GyazoImage) :
  heading_freeb g = true ->
  Forall (fun f => headings (interp (snd f)) = []) (fields g).
Proof.
  unfold heading_freeb. rewrite forallb_forall, Forall_forall.
  intros H f Hf. specialize (H f Hf).
  destruct (headings (interp (snd f))); [reflexivity | discriminate].
Qed.

Lemma Forall_filter {A} (P : A -> Prop) (p : A -> bool) (l : list A) :
  Forall P l -> Forall P (filter p l).
Proof.
  induction 1 as [|x l Hx Hl IH]; simpl.
  - constructor.
  - destruct (p x); [constructor|]; assumption.
Qed.

(** A block is empty or ends with a line feed. *)
Lemma flatten_sections_end (fs : list (string * option string)) :
  flatten (map section fs) = "" \/ exists a, flatten (map section fs) = a ++ LF.
Proof.
  induction fs as [|f fs IH]; simpl.
  - now left.
  - right. destruct IH as [E | [a E]]; rewrite E.
    + exists (fst f ++ LF ++ interp (snd f) ++ LF).
      unfold section. now rewrite append_nil_r, !append_assoc.
    + exists (section f ++ a). now rewrite append_assoc.
Qed.

Lemma headings_markdown_append (g1 g2 : GyazoImage) :
  headings (getImageMetadataMarkdown g1 ++ getImageMetadataMarkdown g2)
  = (headings (getImageMetadataMarkdown g1)
     ++ headings (getImageMetadataMarkdown g2))%list.
Proof.
  rewrite (markdown_sections g1). unfold sections.
  destruct (flatten_sections_end (filter present (fields g1))) as [E | [a E]];
    rewrite E.
  - reflexivity.
  - rewrite append_assoc.
    rewrite headings_append_LF.
    rewrite <- (append_nil_r (a ++ LF)), append_assoc.
    rewrite headings_append_LF. simpl.
    now rewrite app_nil_r.
Qed.

(** C1, as stated, fails: the block of a record with the single non-empty
    field title = "### App:" has two level-3 headings, one of them the
    heading of the absent field app. *)
Lemma C1_heading_count_counterexample :
  headings (getImageMetadataMarkdown injected_title)
  = ["### Title:"; "### App:"]
  /\ map fst (filter present (fields injected_title)) = ["### Title:"]
  /\ headings (getImageMetadataMarkdown injected_title)
     <> map fst (filter present (fields injected_title)).
Proof.
  repeat split; try reflexivity.
  vm_compute. discriminate.
Qed.

(** C1 (amended): for every record the block is the concatenation, in the
    order title, description, app, url, OCR text, OCR locale, of one section
    per present non-empty field and nothing for the others, a section being
    the heading line, the value and a blank line; when no line of a field
    value opens with "### ", the level-3 headings of the block are exactly
    the headings of the present fields, once each and in that order; and the
    block of one record followed by the block of another is the sections of
    the first followed by the sections of the second, heading lines
    included. *)
Theorem C1_markdown_block (g : GyazoImage) :
  getImageMetadataMarkdown g = flatten (map section (filter present (fields g)))
  /\ (heading_freeb g = true ->
      headings (getImageMetadataMarkdown g) = map fst (filter present (fields g)))
  /\ (forall g' : GyazoImage,
        getImageMetadataMarkdown g ++ getImageMetadataMarkdown g'
        = flatten (sections g ++ sections g')
        /\ headings (getImageMetadataMarkdown g ++ getImageMetadataMarkdown g')
           = (headings (getImageMetadataMarkdown g)
              ++ headings (getImageMetadataMarkdown g'))%list).
Proof.
  split; [apply markdown_sections|]. split.
  - intros Hfree. rewrite markdown_sections. unfold sections.
    apply headings_flatten_sections.
    + apply Forall_filter, fields_heading_lines.
    + apply Forall_filter, heading_freeb_Forall, Hfree.
  - intros g'. split.
    + now rewrite flatten_app, <- !markdown_sections.
    + apply headings_markdown_append.
Qed.

Lemma C1_markdown_block_witness :
  heading_freeb sample_image = true
  /\ headings (getImageMetadataMarkdown sample_image)
     = ["### Title:"; "### URL:"; "### OCR:"; "### Locale:"].
Proof.
  split.
  - reflexivity.
  - apply (proj1 (proj2 (C1_markdown_block sample_image))). reflexivity.
Defined.

(** ** Resource URIs *)

(** Unfolds a handler down to the answers of the upstream. *)
Ltac unfold_handler :=
  cbv beta zeta delta
    [run listResources readResource gyazo_latest_image
     try_catch bind fetch ask ret];
  unfold images_request, image_request, search_request in *.

Lemma replace_first_prefix (pat s : string) : replace_first pat (pat ++ s) = s.
Proof.
  destruct (pat ++ s) as [|c r] eqn:E; simpl.
  - rewrite <- E, starts_with_append, drop_append. reflexivity.
  - rewrite <- E, starts_with_append, drop_append. reflexivity.
Qed.

Lemma strip_resource_uri (id : string) : strip_prefix (resource_uri id) = id.
Proof. apply replace_first_prefix. Qed.

Lemma replace_first_absent (pat s : string) :
  includes pat s = false -> replace_first pat s = s.
Proof.
  induction s as [|c r IH]; simpl; intros H.
  - apply orb_false_iff in H as [H _]. now rewrite H.
  - apply orb_false_iff in H as [H Hr]. rewrite H.
    f_equal. now apply IH.
Qed.

(** The reader always opens with the identifier fetch, whatever the URI. *)
Lemma readResource_first_call (uri : string) (w : World) :
  hd_error (calls (run (readResource uri) w))
  = Some (image_request w (strip_prefix uri)).
Proof.
  unfold run, readResource, try_catch, bind, fetch, ask, calls. simpl.
  destruct (fetch_image w _) as [[g|]|e]; simpl.
  - destruct (fetch_blob w _) as [b|[m|]]; reflexivity.
  - reflexivity.
  - destruct e; reflexivity.
Qed.

Lemma listResources_resolved (w : World) (imgs : list GyazoImage) :
  fetch_images w (images_request w "10") = Resolved (Some imgs) ->
  run listResources w = ([images_request w "10"], Returned (map resource_of imgs)).
Proof.
  intros H. unfold_handler. rewrite H. reflexivity.
Qed.

(** C3: the lister builds each URI as the scheme prefix followed by the
    identifier, and the reader's stripping of such a URI gives the identifier
    back: for every list of records the upstream returns, the listed URIs are
    the prefixed identifiers, stripping them recovers the identifiers, and
    reading a listed URI fetches the record of that identifier. *)
Theorem C3_uri_round_trip :
  (forall id : string,
      resource_uri id = "gyazo-mcp:///" ++ id
      /\ strip_prefix (resource_uri id) = id)
  /\ (forall (w : World) (imgs : list GyazoImage),
         fetch_images w (images_request w "10") = Resolved (Some imgs) ->
         exists rs : list Resource,
           run listResources w = ([images_request w "10"], Returned rs)
           /\ map res_uri rs = map (fun g => "gyazo-mcp:///" ++ image_id g) imgs
           /\ map (fun r => strip_prefix (res_uri r)) rs = map image_id imgs
           /\ forall r, In r rs ->
                exists g, In g imgs
                  /\ hd_error (calls (run (readResource (res_uri r)) w))
                     = Some (image_request w (image_id g))).
Proof.
  split.
  - intros id. split; [reflexivity | apply strip_resource_uri].
  - intros w imgs H. exists (map resource_of imgs).
    split; [now apply listResources_resolved|].
    rewrite !map_map. split; [reflexivity|]. split.
    + apply map_ext. intros g. simpl. apply strip_resource_uri.
    + intros r Hr. apply in_map_iff in Hr as [g [<- Hg]].
      exists g. split; [assumption|].
      rewrite readResource_first_call. simpl.
      now rewrite strip_resource_uri.
Qed.

Lemma C3_uri_round_trip_witness :
  exists rs : list Resource,
    run listResources sample_world
    = ([images_request sample_world "10"], Returned rs)
    /\ map res_uri rs = ["gyazo-mcp:///8980c5"]
    /\ map (fun r => strip_prefix (res_uri r)) rs = ["8980c5"].
Proof.
  destruct (proj2 C3_uri_round_trip sample_world [sample_image] eq_refl)
    as [rs [Hrun [Huri [Hid _]]]].
  exists rs. repeat split; assumption.
Defined.

(** C9: the reader does not check that the URI opens with the scheme
    prefix.  Stripping removes the first occurrence of "gyazo-mcp:///" only;
    a URI that does not contain it is left whole and is used, unmodified, as
    the identifier of the upstream fetch, which is issued. *)
Theorem C9_unprefixed_uri_is_identifier (uri : string) (w : World) :
  includes "gyazo-mcp:///" uri = false ->
  strip_prefix uri = uri
  /\ hd_error (calls (run (readResource uri) w)) = Some (image_request w uri)
  /\ strip_prefix ("gyazo-mcp:///" ++ "gyazo-mcp:///" ++ uri) = "gyazo-mcp:///" ++ uri.
Proof.
  intros H.
  assert (E : strip_prefix uri = uri) by now apply replace_first_absent.
  split; [exact E|]. split.
  - now rewrite readResource_first_call, E.
  - apply (replace_first_prefix scheme_prefix).
Qed.

Lemma C9_unprefixed_uri_is_identifier_witness :
  strip_prefix "https://gyazo.com/8980c5" = "https://gyazo.com/8980c5"
  /\ hd_error (calls (run (readResource "https://gyazo.com/8980c5") sample_world))
     = Some (image_request sample_world "https://gyazo.com/8980c5").
Proof.
  destruct (C9_unprefixed_uri_is_identifier "https://gyazo.com/8980c5"
              sample_world eq_refl) as [H1 [H2 _]].
  split; assumption.
Defined.

(** ** Failures of the reader and of the tools *)

(** C6: when the identifier fetch resolves to no record, the reader throws
    the error "Image <id> not found" for the stripped identifier, and the
    identifier fetch is its only outbound call: the image bytes are never
    fetched. *)
Theorem C6_read_not_found (uri : string) (w : World) :
  fetch_image w (image_request w (strip_prefix uri)) = Resolved None ->
  run (readResource uri) w
  = ([image_request w (strip_prefix uri)],
     Threw (ErrorObj ("Image " ++ strip_prefix uri ++ " not found")))
  /\ filter is_bytes_fetch (calls (run (readResource uri) w)) = [].
Proof.
  intros H.
  assert (E : run (readResource uri) w
              = ([image_request w (strip_prefix uri)],
                 Threw (ErrorObj ("Image " ++ strip_prefix uri ++ " not found")))).
  { unfold_handler. rewrite H. reflexivity. }
  split; [exact E | now rewrite E].
Qed.

Lemma C6_read_not_found_witness :
  run (readResource "gyazo-mcp:///missing") empty_world
  = ([image_request empty_world "missing"],
     Threw (ErrorObj "Image missing not found")).
Proof.
  exact (proj1 (C6_read_not_found "gyazo-mcp:///missing" empty_world eq_refl)).
Defined.

(** C7: when the list call of page size 1 resolves to null or to an empty
    list, gyazo_latest_image throws the error "Image not found", and the list
    call is its only outbound call: no image bytes are fetched. *)
Theorem C7_latest_image_not_found (arguments : option Arguments) (w : World) :
  fetch_images w (images_request w "1") = Resolved None
  \/ fetch_images w (images_request w "1") = Resolved (Some []) ->
  run (callTool "gyazo_latest_image" arguments) w
  = ([images_request w "1"], Threw (ErrorObj "Image not found"))
  /\ filter is_bytes_fetch (calls (run (callTool "gyazo_latest_image" arguments) w)) = [].
Proof.
  intros H.
  assert (E : run (callTool "gyazo_latest_image" arguments) w
              = ([images_request w "1"], Threw (ErrorObj "Image not found"))).
  { unfold callTool. simpl String.eqb. unfold_handler.
    destruct H as [H | H]; rewrite H; reflexivity. }
  split; [exact E | now rewrite E].
Qed.

Lemma C7_latest_image_not_found_witness :
  run (callTool "gyazo_latest_image" None) empty_world
  = ([images_request empty_world "1"], Threw (ErrorObj "Image not found")).
Proof.
  exact (proj1 (C7_latest_image_not_found None empty_world (or_intror eq_refl))).
Defined.

(** C8: a call of a tool whose name is none of gyazo_search,
    gyazo_latest_image, gyazo_upload throws the error "Tool <name> not
    found", and makes no outbound call. *)
Theorem C8_unknown_tool (name : string) (arguments : option Arguments) (w : World) :
  name <> "gyazo_search" ->
  name <> "gyazo_latest_image" ->
  name <> "gyazo_upload" ->
  run (callTool name arguments) w
  = ([], Threw (ErrorObj ("Tool " ++ name ++ " not found"))).
Proof.
  intros H1 H2 H3. unfold callTool.
  apply String.eqb_neq in H1, H2, H3.
  rewrite H1, H2, H3. reflexivity.
Qed.

Lemma C8_unknown_tool_witness :
  run (callTool "gyazo_delete" None) sample_world
  = ([], Threw (ErrorObj "Tool gyazo_delete not found")).
Proof.
  apply (C8_unknown_tool "gyazo_delete" None sample_world); discriminate.
Defined.

(** ** The search tool *)

(** C4: a gyazo_search call whose upstream search resolves to null or to an
    empty list returns, without throwing, the single text part
    "No images found". *)
Theorem C4_search_no_results (a : Arguments) (query : string) (w : World) :
  prop "query" a = JStr query ->
  fetch_search w (search_request w query (page_of a) (per_of a)) = Resolved None
  \/ fetch_search w (search_request w query (page_of a) (per_of a)) = Resolved (Some []) ->
  run (callTool "gyazo_search" (Some a)) w
  = ([search_request w query (page_of a) (per_of a)],
     Returned [TextPart "No images found"]).
Proof.
  intros Hq H.
  unfold callTool. simpl String.eqb. unfold gyazo_search. rewrite Hq.
  unfold page_of, per_of in H. unfold_handler.
  destruct H as [H | H]; rewrite H; reflexivity.
Qed.

Lemma C4_search_no_results_witness :
  run (callTool "gyazo_search" (Some [("query", JStr "cat")])) empty_world
  = ([search_request empty_world "cat" 1 20],
     Returned [TextPart "No images found"]).
Proof.
  exact (C4_search_no_results [("query", JStr "cat")] "cat" empty_world
           eq_refl (or_introl eq_refl)).
Defined.

(** ** The upload tool: parsing [imageData] *)

Lemma match_data_uri_unfold (s : string) :
  match_data_uri s
  = if starts_with "data:image/" s
    then word_plus after_subtype "" (drop 11 s) else None.
Proof. reflexivity. Qed.

Lemma after_subtype_word (cap : string) (c : ascii) (r : string) :
  is_word c = true -> after_subtype cap (String c r) = None.
Proof.
  intros H. unfold after_subtype.
  change (starts_with ";base64," (String c r))
    with (Ascii.eqb ";" c && starts_with "base64," r).
  destruct (Ascii.eqb_spec ";" c) as [<-|_]; [discriminate H | reflexivity].
Qed.

(** Greedy matching of the capture group: a run of word characters followed
    by a text that does not open with a word character is captured whole. *)
Lemma word_plus_run (w : string) :
  forall (acc r : string),
    w <> "" ->
    all_word w = true ->
    match r with String c _ => is_word c = false | EmptyString => True end ->
    word_plus after_subtype acc (w ++ r) = after_subtype (acc ++ w) r.
Proof.
  induction w as [|c w IH]; intros acc r Hne Hw Hr; [congruence|].
  unfold all_word in Hw; simpl in Hw.
  apply andb_true_iff in Hw as [Hc Hw].
  simpl. rewrite Hc.
  destruct w as [|d w].
  - simpl. destruct r as [|e r]; simpl.
    + unfold after_subtype. reflexivity.
    + now rewrite Hr.
  - rewrite (IH (acc ++ String c "") r); [|discriminate|exact Hw|exact Hr].
    rewrite append_assoc. simpl (String c "" ++ _).
    destruct (after_subtype (acc ++ String c (String d w)) r) eqn:E.
    + reflexivity.
    + simpl in Hw. apply andb_true_iff in Hw as [Hd _].
      simpl. now apply after_subtype_word.
Qed.

Lemma word_plus_inv (s : string) :
  forall (acc cap rest : string),
    word_plus after_subtype acc s = Some (cap, rest) ->
    exists w, cap = acc ++ w /\ w <> "" /\ all_word w = true
              /\ s = w ++ ";base64," ++ rest.
Proof.
  induction s as [|c s IH]; intros acc cap rest H; simpl in H; [discriminate|].
  destruct (is_word c) eqn:Hc; [|discriminate].
  destruct (word_plus after_subtype (acc ++ String c "") s) as [[cap' rest']|] eqn:E.
  - injection H as -> ->.
    apply IH in E as [w [-> [_ [Hw ->]]]].
    exists (String c w). rewrite append_assoc. simpl.
    repeat split; try discriminate.
    unfold all_word in *. simpl. now rewrite Hc, Hw.
  - unfold after_subtype in H.
    destruct (starts_with ";base64," s) eqn:Hs; [|discriminate].
    injection H as <- <-.
    exists (String c ""). repeat split; try discriminate.
    + unfold all_word. simpl. now rewrite Hc.
    + simpl. f_equal. now apply (starts_with_inv ";base64," s).
Qed.

(** The pattern matches exactly the data URIs of the prose. *)
Lemma match_data_uri_spec (s subtype payload : string) :
  match_data_uri s = Some (subtype, payload) <-> is_data_uri s subtype payload.
Proof.
  rewrite match_data_uri_unfold. split.
  - destruct (starts_with "data:image/" s) eqn:Hs; [|discriminate].
    intros H. apply word_plus_inv in H as [w [-> [Hne [Hw Hd]]]].
    simpl. repeat split; try assumption.
    rewrite (starts_with_inv _ _ Hs). simpl String.length.
    now rewrite Hd.
  - intros [-> [Hne Hw]].
    rewrite starts_with_append.
    change 11 with (String.length "data:image/"). rewrite drop_append.
    rewrite word_plus_run; try assumption; [|reflexivity].
    unfold after_subtype.
    rewrite (starts_with_append ";base64," payload).
    change 8 with (String.length ";base64,"). now rewrite drop_append.
Qed.

Lemma parseImageData_match (s subtype payload : string) :
  match_data_uri s = Some (subtype, payload) ->
  parseImageData s
  = {| imageType := subtype; imageBuffer := Buffer_from_base64 payload |}.
Proof.
  intros H. unfold parseImageData. rewrite H.
  apply match_data_uri_spec in H as [_ [Hne _]].
  destruct subtype; [congruence | reflexivity].
Qed.

Lemma parseImageData_no_match (s : string) :
  match_data_uri s = None ->
  parseImageData s
  = {| imageType := "png"; imageBuffer := Buffer_from_base64 s |}.
Proof.
  intros H. unfold parseImageData. now rewrite H.
Qed.

(** C2: an input of the form "data:image/<subtype>;base64,<payload>", with
    a non-empty subtype of word characters, gets the subtype as content type
    and the base64 decoding of the payload alone as bytes; an input of no
    such form gets the content type "png" and the base64 decoding of the
    whole input.  "data:image/jpeg;base64,QUJD" gives "jpeg" and the bytes of
    "ABC", and "QUJD" gives "png" and the same bytes. *)
Theorem C2_upload_parsing :
  (forall s subtype payload : string,
      is_data_uri s subtype payload ->
      parseImageData s
      = {| imageType := subtype; imageBuffer := Buffer_from_base64 payload |})
  /\ (forall s : string,
         (forall subtype payload, ~ is_data_uri s subtype payload) ->
         parseImageData s
         = {| imageType := "png"; imageBuffer := Buffer_from_base64 s |})
  /\ parseImageData "data:image/jpeg;base64,QUJD"
     = {| imageType := "jpeg"; imageBuffer := list_byte_of_string "ABC" |}
  /\ parseImageData "QUJD"
     = {| imageType := "png"; imageBuffer := list_byte_of_string "ABC" |}.
Proof.
  split; [|split; [|split]].
  - intros s subtype payload H.
    now apply parseImageData_match, match_data_uri_spec.
  - intros s H. apply parseImageData_no_match.
    destruct (match_data_uri s) as [[subtype payload]|] eqn:E; [|reflexivity].
    apply match_data_uri_spec in E. now apply H in E.
  - reflexivity.
  - reflexivity.
Qed.

Lemma C2_upload_parsing_witness :
  is_data_uri "data:image/gif;base64,R0lG" "gif" "R0lG"
  /\ parseImageData "data:image/gif;base64,R0lG"
     = {| imageType := "gif"; imageBuffer := list_byte_of_string "GIF" |}.
Proof.
  assert (H : is_data_uri "data:image/gif;base64,R0lG" "gif" "R0lG").
  { split; [reflexivity|]. split; [discriminate | reflexivity]. }
  split; [exact H|].
  exact (proj1 C2_upload_parsing _ _ _ H).
Defined.

Lemma append_if_cons (name : string) (v : JsVal) (x : string * FormValue)
      (form : list (string * FormValue)) :
  append_if name v (x :: form) = x :: append_if name v form.
Proof. unfold append_if. now destruct (js_truthy v). Qed.

(** The upload tool posts what [parseImageData] gives: the first part of the
    form it sends is the file of the decoded bytes, typed and named after
    the content type. *)
Lemma gyazo_upload_posts_parsed (a : Arguments) (s : string) (w : World) :
  prop "imageData" a = JStr s ->
  exists form,
    hd_error (calls (run (callTool "gyazo_upload" (Some a)) w))
    = Some (Post "https://upload.gyazo.com/api/upload"
              (("imagedata",
                FormFile (imageBuffer (parseImageData s))
                  ("screenshot_" ++ Z_toString (Date_now w) ++ "."
                   ++ imageType (parseImageData s))
                  ("image/" ++ imageType (parseImageData s))) :: form)).
Proof.
  intros H. unfold callTool. simpl String.eqb. unfold gyazo_upload. rewrite H.
  cbv beta iota zeta delta [run try_catch bind fetch ask ret calls].
  rewrite !append_if_cons. simpl app.
  eexists.
  destruct (fetch_upload w _) as [[[] st [res|[m|]]]|[m|]]; reflexivity.
Qed.

Lemma until_semicolon_word (w r : string) :
  all_word w = true -> until_semicolon (w ++ ";" ++ r) = Some w.
Proof.
  induction w as [|c w IH]; intros Hw; simpl.
  - reflexivity.
  - unfold all_word in Hw; simpl in Hw.
    apply andb_true_iff in Hw as [Hc Hw].
    destruct (Ascii.eqb_spec c ";") as [->|_]; [discriminate Hc|].
    simpl in IH. now rewrite (IH Hw).
Qed.

(** A match of the pattern captures the declared subtype. *)
Lemma match_data_uri_subtype (s cap rest : string) :
  match_data_uri s = Some (cap, rest) -> data_uri_subtype s = Some cap.
Proof.
  intros H. apply match_data_uri_spec in H as [-> [_ Hw]].
  unfold data_uri_subtype. rewrite starts_with_append.
  change 11 with (String.length "data:image/"). rewrite drop_append.
  now apply (until_semicolon_word cap ("base64," ++ rest)).
Qed.

(** The declared subtype of "data:image/<subtype>;<rest>", for a subtype
    without a semicolon, is that subtype. *)
Lemma data_uri_subtype_explicit (subtype r : string) :
  until_semicolon (subtype ++ ";" ++ r) = Some subtype ->
  data_uri_subtype ("data:image/" ++ subtype ++ ";" ++ r) = Some subtype.
Proof.
  intros H. unfold data_uri_subtype. rewrite starts_with_append.
  change 11 with (String.length "data:image/"). now rewrite drop_append.
Qed.

(** C10: the pattern takes word characters only in the subtype.  When the
    subtype an input declares (the text between "data:image/" and the first
    semicolon) has any other character, the pattern does not match: the
    content type is the default "png" and the whole input, data-URI prefix
    included, is what is base64-decoded; so for "data:image/svg+xml;base64,QUJD". *)
Theorem C10_non_word_subtype (s subtype : string) :
  data_uri_subtype s = Some subtype ->
  all_word subtype = false ->
  match_data_uri s = None
  /\ parseImageData s
     = {| imageType := "png"; imageBuffer := Buffer_from_base64 s |}.
Proof.
  intros Hs Hw.
  assert (E : match_data_uri s = None).
  { destruct (match_data_uri s) as [[cap rest]|] eqn:E; [|reflexivity].
    pose proof (match_data_uri_subtype _ _ _ E) as Hc.
    apply match_data_uri_spec in E as [_ [_ Hcap]].
    congruence. }
  split; [exact E | now apply parseImageData_no_match].
Qed.

Lemma C10_non_word_subtype_witness :
  match_data_uri "data:image/svg+xml;base64,QUJD" = None
  /\ parseImageData "data:image/svg+xml;base64,QUJD"
     = {| imageType := "png";
          imageBuffer := Buffer_from_base64 "data:image/svg+xml;base64,QUJD" |}.
Proof.
  exact (C10_non_word_subtype "data:image/svg+xml;base64,QUJD" "svg+xml"
           eq_refl eq_refl).
Defined.

(** ** JSON texts: reading back what [JSON.stringify] writes *)

(** Induction over a JSON value that reaches the values nested in its lists. *)
Lemma Json_nested_ind (P : Json -> Prop) :
  P JNull ->
  (forall b, P (JBool b)) ->
  (forall s, P (JString s)) ->
  (forall l, Forall P l -> P (JArray l)) ->
  (forall l, Forall (fun kv => P (snd kv)) l -> P (JObject l)) ->
  forall v, P v.
Proof.
  intros Hnull Hbool Hstring Harray Hobject.
  fix IH 1. intros [|b|s|l|l].
  - exact Hnull.
  - apply Hbool.
  - apply Hstring.
  - apply Harray. induction l as [|x l IHl]; constructor; [apply IH | exact IHl].
  - apply Hobject. induction l as [|kv l IHl]; constructor; [apply IH | exact IHl].
Qed.

Lemma skip_ws_append (a s : string) :
  all_ws a = true -> skip_ws (a ++ s) = skip_ws s.
Proof.
  induction a as [|c a IH]; intros H; simpl.
  - reflexivity.
  - unfold all_ws in H; simpl in H.
    apply andb_true_iff in H as [Hc Ha]. rewrite Hc. now apply IH.
Qed.

Lemma all_ws_append (a b : string) :
  all_ws a = true -> all_ws b = true -> all_ws (a ++ b) = true.
Proof.
  induction a as [|c a IH]; intros Ha Hb; simpl.
  - exact Hb.
  - unfold all_ws in *; simpl in *.
    apply andb_true_iff in Ha as [Hc Ha]. rewrite Hc. now apply IH.
Qed.

Lemma skip_ws_start (c : ascii) (r : string) :
  is_ws c = false -> skip_ws (String c r) = String c r.
Proof. intros H. simpl. now rewrite H. Qed.

(** *** Strings *)

Lemma parse_chars_quote_char (c : ascii) (r : string) :
  parse_chars (quote_char c ++ r) = cons_char c (parse_chars r).
Proof.
  destruct c as [[] [] [] [] [] [] [] []]; reflexivity.
Qed.

Lemma parse_chars_quote_body (s rest : string) :
  parse_chars (quote_body s ++ DQ ++ rest) = Some (s, rest).
Proof.
  induction s as [|c s IH]; simpl quote_body.
  - reflexivity.
  - rewrite append_assoc, parse_chars_quote_char, IH. reflexivity.
Qed.

(** *** Values *)

Lemma parse_value_skip (fuel : nat) (s s' : string) :
  skip_ws s = skip_ws s' -> parse_value fuel s = parse_value fuel s'.
Proof.
  intros H. destruct fuel; [reflexivity|].
  cbn [parse_value]. now rewrite H.
Qed.

Lemma parse_value_ws (fuel : nat) (a s : string) :
  all_ws a = true -> parse_value fuel (a ++ s) = parse_value fuel s.
Proof.
  intros H. apply parse_value_skip. now apply skip_ws_append.
Qed.

Lemma parse_elements_ws (fuel : nat) (a s : string) :
  all_ws a = true -> parse_elements fuel (a ++ s) = parse_elements fuel s.
Proof.
  intros H. destruct fuel; [reflexivity|].
  cbn [parse_elements]. now rewrite parse_value_ws.
Qed.

Lemma parse_members_ws (fuel : nat) (a s : string) :
  all_ws a = true -> parse_members fuel (a ++ s) = parse_members fuel s.
Proof.
  intros H. destruct fuel; [reflexivity|].
  cbn [parse_members]. now rewrite skip_ws_append.
Qed.

Lemma parse_value_string (fuel : nat) (s rest : string) :
  parse_value (S fuel) (QuoteJSONString s ++ rest) = Some (JString s, rest).
Proof.
  unfold QuoteJSONString. rewrite !append_assoc.
  change (DQ ++ quote_body s ++ DQ ++ rest)
    with (String DQ_char (quote_body s ++ DQ ++ rest)).
  cbn [parse_value]. rewrite skip_ws_start by reflexivity.
  change (Ascii.eqb DQ_char DQ_char) with true. cbv iota.
  now rewrite parse_chars_quote_body.
Qed.

(** The text of a value opens with a character that is neither whitespace
    nor a closing bracket, a closing brace or a comma. *)
Lemma SerializeJSON_start (indent : string) (v : Json) :
  exists c r, SerializeJSON indent v = String c r /\ value_start c = true.
Proof.
  destruct v as [|[]|s|[|x l]|[|kv l]];
    try (eexists; eexists; split; [reflexivity | reflexivity]).
Qed.

Lemma concat_cons2 (sep x y : string) (l : list string) :
  String.concat sep (x :: y :: l) = x ++ sep ++ String.concat sep (y :: l).
Proof. reflexivity. Qed.

Lemma value_start_not_ws (c : ascii) : value_start c = true -> is_ws c = false.
Proof.
  unfold value_start. destruct (is_ws c); [discriminate | reflexivity].
Qed.

(** The elements of a non-empty array, from the first element to the closing
    bracket. *)
Lemma parse_elements_text (indent' tail : string) :
  all_ws indent' = true ->
  all_ws tail = true ->
  forall l : list Json,
    Forall reads_back l ->
    l <> [] ->
    forall (ws rest : string) (fuel : nat),
      all_ws ws = true ->
      list_sum (map (fun v => S (size v)) l) <= fuel ->
      parse_elements fuel
        (ws ++ String.concat ("," ++ LF ++ indent') (map (SerializeJSON indent') l)
            ++ tail ++ "]" ++ rest)
      = Some (l, rest).
Proof.
  intros Hind Htail. induction 1 as [|x l Hx Hl IH];
    intros Hne ws rest fuel Hws Hfuel; [congruence|].
  rewrite parse_elements_ws by assumption.
  destruct fuel as [|fuel]; [simpl in Hfuel; lia|].
  cbn [parse_elements].
  destruct l as [|y l].
  - change (String.concat ("," ++ LF ++ indent') (map (SerializeJSON indent') [x]))
      with (SerializeJSON indent' x).
    rewrite Hx by (assumption || (simpl in Hfuel; lia)).
    rewrite skip_ws_append by assumption.
    reflexivity.
  - change (map (SerializeJSON indent') (x :: y :: l))
      with (SerializeJSON indent' x
            :: SerializeJSON indent' y :: map (SerializeJSON indent') l).
    rewrite concat_cons2.
    change (SerializeJSON indent' y :: map (SerializeJSON indent') l)
      with (map (SerializeJSON indent') (y :: l)).
    rewrite (append_assoc (SerializeJSON indent' x)).
    rewrite Hx by (assumption || (simpl in Hfuel; lia)).
    rewrite (append_assoc ("," ++ LF ++ indent')).
    change (("," ++ LF ++ indent') ++ ?z) with (String "," ((LF ++ indent') ++ z)).
    rewrite skip_ws_start by reflexivity.
    change (Ascii.eqb "," ",") with true. cbv iota.
    rewrite IH.
    + reflexivity.
    + discriminate.
    + now apply (all_ws_append LF indent').
    + simpl in Hfuel |- *. lia.
Qed.

Lemma member_text (k : string) (v : Json) (indent' z : string) :
  (QuoteJSONString k ++ ": " ++ SerializeJSON indent' v) ++ z
  = String DQ_char
      (quote_body k ++ DQ ++ String ":" (" " ++ SerializeJSON indent' v ++ z)).
Proof.
  unfold QuoteJSONString. rewrite !append_assoc. reflexivity.
Qed.

(** The members of a non-empty object, from the first key to the closing
    brace. *)
Lemma parse_members_text (indent' tail : string) :
  all_ws indent' = true ->
  all_ws tail = true ->
  forall l : list (string * Json),
    Forall (fun kv => reads_back (snd kv)) l ->
    l <> [] ->
    forall (ws rest : string) (fuel : nat),
      all_ws ws = true ->
      list_sum (map (fun kv => S (size (snd kv))) l) <= fuel ->
      parse_members fuel
        (ws ++ String.concat ("," ++ LF ++ indent')
                 (map (fun kv => QuoteJSONString (fst kv) ++ ": "
                                 ++ SerializeJSON indent' (snd kv)) l)
            ++ tail ++ "}" ++ rest)
      = Some (l, rest).
Proof.
  intros Hind Htail. induction 1 as [|[k v] l Hv Hl IH];
    intros Hne ws rest fuel Hws Hfuel; [congruence|].
  rewrite parse_members_ws by assumption.
  destruct fuel as [|fuel]; [simpl in Hfuel; lia|].
  simpl snd in Hv.
  cbn [parse_members].
  destruct l as [|kv l].
  - change (String.concat ("," ++ LF ++ indent')
              (map (fun kv => QuoteJSONString (fst kv) ++ ": "
                              ++ SerializeJSON indent' (snd kv)) [(k, v)]))
      with (QuoteJSONString k ++ ": " ++ SerializeJSON indent' v).
    rewrite member_text.
    rewrite skip_ws_start by reflexivity.
    change (Ascii.eqb DQ_char DQ_char) with true. cbv iota.
    rewrite parse_chars_quote_body.
    rewrite skip_ws_start by reflexivity.
    change (Ascii.eqb ":" ":") with true. cbv iota.
    rewrite parse_value_ws by reflexivity.
    rewrite Hv by (assumption || (simpl in Hfuel; lia)).
    rewrite skip_ws_append by assumption.
    reflexivity.
  - change (map (fun kv => QuoteJSONString (fst kv) ++ ": "
                           ++ SerializeJSON indent' (snd kv)) ((k, v) :: kv :: l))
      with ((QuoteJSONString k ++ ": " ++ SerializeJSON indent' v)
            :: map (fun kv => QuoteJSONString (fst kv) ++ ": "
                              ++ SerializeJSON indent' (snd kv)) (kv :: l)).
    set (members := map (fun kv => QuoteJSONString (fst kv) ++ ": "
                                   ++ SerializeJSON indent' (snd kv)) (kv :: l)) in *.
    assert (E : String.concat ("," ++ LF ++ indent')
                  ((QuoteJSONString k ++ ": " ++ SerializeJSON indent' v) :: members)
                = (QuoteJSONString k ++ ": " ++ SerializeJSON indent' v)
                  ++ ("," ++ LF ++ indent') ++ String.concat ("," ++ LF ++ indent') members)
      by reflexivity.
    rewrite E; clear E.
    rewrite (append_assoc (QuoteJSONString k ++ ": " ++ SerializeJSON indent' v)).
    rewrite member_text.
    rewrite skip_ws_start by reflexivity.
    change (Ascii.eqb DQ_char DQ_char) with true. cbv iota.
    rewrite parse_chars_quote_body.
    rewrite skip_ws_start by reflexivity.
    change (Ascii.eqb ":" ":") with true. cbv iota.
    rewrite parse_value_ws by reflexivity.
    rewrite Hv by (assumption || (simpl in Hfuel; lia)).
    rewrite (append_assoc ("," ++ LF ++ indent')).
    change (("," ++ LF ++ indent') ++ ?z) with (String "," ((LF ++ indent') ++ z)).
    rewrite skip_ws_start by reflexivity.
    change (Ascii.eqb "," ",") with true. cbv iota.
    subst members. rewrite IH.
    + reflexivity.
    + discriminate.
    + now apply (all_ws_append LF indent').
    + simpl in Hfuel |- *. lia.
Qed.

Lemma all_ws_gap (indent : string) :
  all_ws indent = true -> all_ws (indent ++ gap) = true.
Proof. intros H. now apply all_ws_append. Qed.

Lemma all_ws_LF (indent : string) :
  all_ws indent = true -> all_ws (LF ++ indent) = true.
Proof. intros H. now apply (all_ws_append LF). Qed.

(** Every value is read back from its text. *)
Lemma parse_SerializeJSON (v : Json) : reads_back v.
Proof.
  induction v as [|b|s|l IH|l IH] using Json_nested_ind;
    intros indent rest fuel Hind Hfuel;
    (destruct fuel as [|fuel]; [simpl in Hfuel; lia|]).
  - reflexivity.
  - destruct b; reflexivity.
  - apply parse_value_string.
  - destruct l as [|x l]; [reflexivity|].
    assert (E : SerializeJSON indent (JArray (x :: l)) ++ rest
                = String "["
                    ((LF ++ indent ++ gap)
                     ++ String.concat ("," ++ LF ++ indent ++ gap)
                          (map (SerializeJSON (indent ++ gap)) (x :: l))
                     ++ (LF ++ indent) ++ "]" ++ rest)).
    { cbn [SerializeJSON]. rewrite !append_assoc. reflexivity. }
    rewrite E; clear E.
    cbn [parse_value]. rewrite skip_ws_start by reflexivity.
    change (Ascii.eqb "[" DQ_char) with false.
    change (Ascii.eqb "[" "[") with true. cbv iota.
    rewrite skip_ws_append by now apply all_ws_LF, all_ws_gap.
    change (map (SerializeJSON (indent ++ gap)) (x :: l))
      with (SerializeJSON (indent ++ gap) x :: map (SerializeJSON (indent ++ gap)) l).
    destruct (SerializeJSON_start (indent ++ gap) x) as [c [r [Ec Hc]]].
    assert (Es : exists r', skip_ws
              (String.concat ("," ++ LF ++ indent ++ gap)
                 (SerializeJSON (indent ++ gap) x
                  :: map (SerializeJSON (indent ++ gap)) l)
               ++ (LF ++ indent) ++ "]" ++ rest) = String c r').
    { destruct (map (SerializeJSON (indent ++ gap)) l) as [|y ys];
        cbn [String.concat]; rewrite Ec; eexists;
        apply skip_ws_start, value_start_not_ws, Hc. }
    destruct Es as [r' Es]. rewrite Es.
    assert (Hb : Ascii.eqb c "]" = false).
    { unfold value_start in Hc. destruct (Ascii.eqb c "]");
        [now rewrite !andb_false_r in Hc | reflexivity]. }
    rewrite Hb.
    change (SerializeJSON (indent ++ gap) x :: map (SerializeJSON (indent ++ gap)) l)
      with (map (SerializeJSON (indent ++ gap)) (x :: l)).
    rewrite (parse_elements_text (indent ++ gap) (LF ++ indent)).
    + reflexivity.
    + now apply all_ws_gap.
    + now apply all_ws_LF.
    + exact IH.
    + discriminate.
    + now apply all_ws_LF, all_ws_gap.
    + cbn [size] in Hfuel. lia.
  - destruct l as [|[k x] l]; [reflexivity|].
    set (member := fun kv : string * Json =>
           QuoteJSONString (fst kv) ++ ": " ++ SerializeJSON (indent ++ gap) (snd kv)).
    assert (E : SerializeJSON indent (JObject ((k, x) :: l)) ++ rest
                = String "{"
                    ((LF ++ indent ++ gap)
                     ++ String.concat ("," ++ LF ++ indent ++ gap)
                          (map member ((k, x) :: l))
                     ++ (LF ++ indent) ++ "}" ++ rest)).
    { cbn [SerializeJSON]. rewrite !append_assoc. reflexivity. }
    rewrite E; clear E.
    cbn [parse_value]. rewrite skip_ws_start by reflexivity.
    change (Ascii.eqb "{" DQ_char) with false.
    change (Ascii.eqb "{" "[") with false.
    change (Ascii.eqb "{" "{") with true. cbv iota.
    rewrite skip_ws_append by now apply all_ws_LF, all_ws_gap.
    assert (Es : exists r', skip_ws
              (String.concat ("," ++ LF ++ indent ++ gap) (map member ((k, x) :: l))
               ++ (LF ++ indent) ++ "}" ++ rest) = String DQ_char r').
    { change (map member ((k, x) :: l)) with (member (k, x) :: map member l).
      destruct (map member l) as [|y ys];
        cbn [String.concat]; eexists; reflexivity. }
    destruct Es as [r' Es]. rewrite Es.
    change (Ascii.eqb DQ_char "}") with false. cbv iota.
    subst member.
    rewrite (parse_members_text (indent ++ gap) (LF ++ indent)).
    + reflexivity.
    + now apply all_ws_gap.
    + now apply all_ws_LF.
    + exact IH.
    + discriminate.
    + now apply all_ws_LF, all_ws_gap.
    + cbn [size] in Hfuel. lia.
Qed.

(** *** Whole texts *)

Lemma sum_le_concat {A : Type} (f : A -> string) (sz : A -> nat)
      (sep : string) (l : list A) :
  1 <= String.length sep ->
  Forall (fun a => sz a <= String.length (f a)) l ->
  list_sum (map (fun a => S (sz a)) l)
  <= S (String.length (String.concat sep (map f l))).
Proof.
  intros Hsep. induction 1 as [|x l Hx Hl IH].
  - simpl. lia.
  - destruct l as [|y l].
    + simpl. lia.
    + change (map f (x :: y :: l)) with (f x :: f y :: map f l).
      rewrite concat_cons2, !length_append.
      change (f y :: map f l) with (map f (y :: l)).
      change (list_sum (map (fun a => S (sz a)) (x :: y :: l)))
        with (S (sz x) + list_sum (map (fun a => S (sz a)) (y :: l))).
      lia.
Qed.

Lemma size_le_length (v : Json) :
  forall indent : string, size v <= String.length (SerializeJSON indent v).
Proof.
  induction v as [|b|s|l IH|l IH] using Json_nested_ind; intros indent.
  - simpl. lia.
  - destruct b; simpl; lia.
  - simpl. lia.
  - destruct l as [|x l]; [simpl; lia|].
    assert (H := sum_le_concat (SerializeJSON (indent ++ gap)) size
                   ("," ++ LF ++ indent ++ gap) (x :: l)).
    cbn [SerializeJSON size]. rewrite !length_append.
    change (String.length "[") with 1. change (String.length LF) with 1.
    assert (Hs : 1 <= String.length ("," ++ LF ++ indent ++ gap)) by (simpl; lia).
    specialize (H Hs).
    assert (Hf : Forall (fun a => size a <= String.length (SerializeJSON (indent ++ gap) a))
                        (x :: l)).
    { eapply Forall_impl; [|exact IH]. intros a Ha. apply Ha. }
    specialize (H Hf). lia.
  - destruct l as [|[k x] l]; [simpl; lia|].
    assert (H := sum_le_concat
                   (fun kv => QuoteJSONString (fst kv) ++ ": "
                              ++ SerializeJSON (indent ++ gap) (snd kv))
                   (fun kv => size (snd kv))
                   ("," ++ LF ++ indent ++ gap) ((k, x) :: l)).
    cbn [SerializeJSON size]. rewrite !length_append.
    change (String.length "{") with 1. change (String.length LF) with 1.
    assert (Hs : 1 <= String.length ("," ++ LF ++ indent ++ gap)) by (simpl; lia).
    specialize (H Hs).
    assert (Hf : Forall (fun kv => size (snd kv)
                           <= String.length
                                (QuoteJSONString (fst kv) ++ ": "
                                 ++ SerializeJSON (indent ++ gap) (snd kv)))
                        ((k, x) :: l)).
    { eapply Forall_impl; [|exact IH]. intros a Ha. simpl in Ha.
      rewrite !length_append. specialize (Ha (indent ++ gap)). lia. }
    specialize (H Hf). lia.
Qed.

(** What [JSON.stringify(v, null, 2)] writes is read back as [v]. *)
Lemma JSON_parse_stringify (v : Json) :
  JSON_parse (JSON_stringify_2 v) = Some v.
Proof.
  unfold JSON_parse, JSON_stringify_2.
  rewrite <- (append_nil_r (SerializeJSON "" v)) at 2.
  rewrite parse_SerializeJSON.
  - reflexivity.
  - reflexivity.
  - pose proof (size_le_length v ""). lia.
Qed.

(** C5: a gyazo_search call whose upstream search resolves to N >= 1
    records returns exactly one text part; its text, parsed as JSON, is an
    array of N objects in the order of the records, each with exactly the
    seven fields uri ("gyazo-mcp:///" + identifier), mimeType ("image/" +
    content type), permalink_url, url, thumb_url, created_at and alt_text of
    its record. *)
Theorem C5_search_results (a : Arguments) (query : string) (w : World)
        (images : list Search.SearchedGyazoImage) :
  prop "query" a = JStr query ->
  fetch_search w (search_request w query (page_of a) (per_of a))
  = Resolved (Some images) ->
  1 <= List.length images ->
  exists (text : string) (objects : list Json),
    run (callTool "gyazo_search" (Some a)) w
    = ([search_request w query (page_of a) (per_of a)], Returned [TextPart text])
    /\ JSON_parse text = Some (JArray objects)
    /\ List.length objects = List.length images
    /\ objects
       = map (fun image =>
                JObject
                  [ ("uri", JString ("gyazo-mcp:///" ++ Search.image_id image));
                    ("mimeType", JString ("image/" ++ Search.type image));
                    ("permalink_url", JString (Search.permalink_url image));
                    ("url", JString (Search.url image));
                    ("thumb_url", JString (Search.thumb_url image));
                    ("created_at", JString (Search.created_at image));
                    ("alt_text", JString (Search.alt_text image)) ])
             images.
Proof.
  intros Hq H Hn.
  exists (JSON_stringify_2 (JArray (map search_content images))),
         (map search_content images).
  split; [|split; [|split]].
  - unfold callTool. simpl String.eqb. unfold gyazo_search. rewrite Hq.
    unfold page_of, per_of in H. unfold_handler. rewrite H.
    destruct images as [|image images]; [simpl in Hn; lia | reflexivity].
  - apply JSON_parse_stringify.
  - apply length_map.
  - reflexivity.
Qed.

Lemma C5_search_results_witness :
  exists (text : string) (objects : list Json),
    run (callTool "gyazo_search" (Some [("query", JStr "cat"); ("per", JNum 2)]))
        sample_world
    = ([search_request sample_world "cat" 1 2], Returned [TextPart text])
    /\ JSON_parse text = Some (JArray objects)
    /\ List.length objects = 2.
Proof.
  destruct (C5_search_results [("query", JStr "cat"); ("per", JNum 2)] "cat"
              sample_world [sample_hit; sample_hit] eq_refl eq_refl
              (le_S 1 1 (le_n 1)))
    as [text [objects [Hrun [Hparse [Hlen _]]]]].
  exists text, objects. split; [exact Hrun|]. split; [exact Hparse | exact Hlen].
Defined.

(** ** Worked examples *)

Example markdown_of_sample_image :
  getImageMetadataMarkdown sample_image
  = "### Title:" ++ LF ++ "Gyazo" ++ LF ++ LF
    ++ "### URL:" ++ LF ++ "https://gyazo.com" ++ LF ++ LF
    ++ "### OCR:" ++ LF ++ "Gyazo" ++ LF ++ LF ++ LF
    ++ "### Locale:" ++ LF ++ "en" ++ LF ++ LF.
Proof. reflexivity. Qed.

Example read_of_sample_image :
  run (readResource "gyazo-mcp:///8980c5") sample_world
  = ([image_request sample_world "8980c5"; GetUrl "https://i.gyazo.com/8980c5.png"],
     Returned
       [ BlobContent "gyazo-mcp:///8980c5" "image/png" "QUJD";
         TextContent "gyazo-mcp:///8980c5" "text/plain"
           (getImageMetadataMarkdown sample_image) ]).
Proof. reflexivity. Qed.

Example latest_of_sample_world :
  run (callTool "gyazo_latest_image" None) sample_world
  = ([images_request sample_world "1"; GetUrl "https://i.gyazo.com/8980c5.png"],
     Returned
       [ ImagePart "QUJD" "image/png";
         TextPart (getImageMetadataMarkdown sample_image) ]).
Proof. reflexivity. Qed.

Example upload_of_data_uri :
  calls (run (callTool "gyazo_upload"
                (Some [ ("imageData", JStr "data:image/jpeg;base64,QUJD");
                        ("title", JStr "t"); ("app", JNum 0) ]))
             sample_world)
  = [ Post "https://upload.gyazo.com/api/upload"
        [ ("imagedata",
           FormFile (list_byte_of_string "ABC")
             "screenshot_1700000000000.jpeg" "image/jpeg");
          ("title", FormText "t");
          ("access_token", FormText "token") ] ].
Proof. reflexivity. Qed.

Example search_without_query :
  run (callTool "gyazo_search" (Some [("page", JNum 2)])) sample_world
  = ([], Threw (ErrorObj
                  "Invalid search arguments: query is required and must be a string")).
Proof. reflexivity. Qed.

Example stringify_array_of_string :
  JSON_stringify_2 (JArray [JString "a"; JObject [("k", JNull)]])
  = "[" ++ LF
    ++ "  " ++ DQ ++ "a" ++ DQ ++ "," ++ LF
    ++ "  {" ++ LF
    ++ "    " ++ DQ ++ "k" ++ DQ ++ ": null" ++ LF
    ++ "  }" ++ LF
    ++ "]".
Proof. reflexivity. Qed.

Example base64_of_bytes :
  Buffer_toString_base64 (list_byte_of_string "Gyazo") = "R3lhem8="
  /\ Buffer_from_base64 "R3lhem8=" = list_byte_of_string "Gyazo".
Proof. split; reflexivity. Qed.

(** * Further properties of the handlers *)

(** ** The Markdown metadata block *)

(** X1: the block is empty exactly when none of the six fields is a non-empty
    string: a record without metadata and OCR text gives the empty text, and
    any present field gives a non-empty one. *)
Theorem markdown_empty_iff (g : GyazoImage) :
  getImageMetadataMarkdown g = ""
  <-> truthy (title (metadata g)) = false
      /\ truthy (desc (metadata g)) = false
      /\ truthy (app (metadata g)) = false
      /\ truthy (meta_url (metadata g)) = false
      /\ truthy (ocr_field description g) = false
      /\ truthy (ocr_field locale g) = false.
Proof.
  unfold getImageMetadataMarkdown.
  destruct (truthy (title (metadata g)));
    destruct (truthy (desc (metadata g)));
    destruct (truthy (app (metadata g)));
    destruct (truthy (meta_url (metadata g)));
    destruct (truthy (ocr_field description g));
    destruct (truthy (ocr_field locale g));
    cbn [String.append];
    (split; [intros H; try discriminate H; repeat split
            | intros (H1 & H2 & H3 & H4 & H5 & H6); try discriminate; reflexivity]).
Qed.

Lemma starts_with_append_l (p a b : string) :
  starts_with p a = true -> starts_with p (a ++ b) = true.
Proof.
  revert a; induction p as [|x p IH]; intros a H; [reflexivity|].
  destruct a as [|y a]; [discriminate|].
  simpl in *. apply andb_true_iff in H as [Hxy Hp].
  now rewrite Hxy, IH.
Qed.

Lemma flatten_sections_shape (fs : list (string * option string)) :
  Forall (fun f => starts_with "### " (fst f) = true) fs ->
  fs <> [] ->
  starts_with "### " (flatten (map section fs)) = true
  /\ exists body, flatten (map section fs) = body ++ LF ++ LF.
Proof.
  induction 1 as [|f fs Hf Hfs IH]; intros Hne; [congruence|].
  split.
  - change (flatten (map section (f :: fs)))
      with (section f ++ flatten (map section fs)).
    unfold section. apply starts_with_append_l, starts_with_append_l, Hf.
  - destruct fs as [|f' fs].
    + exists (fst f ++ LF ++ interp (snd f)). simpl. unfold section.
      now rewrite append_nil_r, !append_assoc.
    + destruct IH as [_ [body E]]; [discriminate|].
      exists (section f ++ body).
      change (flatten (map section (f :: f' :: fs)))
        with (section f ++ flatten (map section (f' :: fs))).
      now rewrite E, append_assoc.
Qed.

(** X2: a block that is not empty opens with a level-3 heading and closes with a
    blank line, so that blocks can be appended to one another or to other
    Markdown text. *)
Theorem markdown_shape (g : GyazoImage) :
  getImageMetadataMarkdown g <> "" ->
  starts_with "### " (getImageMetadataMarkdown g) = true
  /\ exists body, getImageMetadataMarkdown g = body ++ LF ++ LF.
Proof.
  intros Hne. rewrite markdown_sections in *. unfold sections in *.
  apply flatten_sections_shape.
  - apply Forall_filter. unfold fields. repeat constructor.
  - intros E. rewrite E in Hne. now apply Hne.
Qed.

Lemma markdown_shape_witness :
  starts_with "### " (getImageMetadataMarkdown sample_image) = true
  /\ exists body, getImageMetadataMarkdown sample_image = body ++ LF ++ LF.
Proof.
  apply (markdown_shape sample_image). discriminate.
Defined.

Lemma headings_section_any (f : string * option string) (rest : string) :
  heading_line (fst f) ->
  headings (section f ++ rest)
  = (fst f :: headings (interp (snd f)) ++ headings rest)%list.
Proof.
  intros Hh. unfold section.
  rewrite !append_assoc.
  rewrite headings_append_LF, Hh.
  rewrite headings_append_LF.
  change (LF ++ rest) with ("" ++ LF ++ rest).
  rewrite headings_append_LF. reflexivity.
Qed.

(** X3: the level-3 headings of a block, for any record: for each present
    field, in order, the heading of its section, then the heading lines
    that stand inside its value.  A value is copied as it is, so its own
    heading lines show up as headings of the block. *)
Theorem markdown_headings (g : GyazoImage) :
  headings (getImageMetadataMarkdown g)
  = flat_map (fun f => fst f :: headings (interp (snd f)))
             (filter present (fields g)).
Proof.
  rewrite markdown_sections. unfold sections.
  assert (H : Forall (fun f => heading_line (fst f)) (filter present (fields g)))
    by apply Forall_filter, fields_heading_lines.
  induction H as [|f fs Hf Hfs IH]; [reflexivity|].
  change (flatten (map section (f :: fs)))
    with (section f ++ flatten (map section fs)).
  rewrite (headings_section_any f _ Hf), IH. reflexivity.
Qed.

(** ** Base64: what the read handlers encode, the upload tool decodes *)

Lemma all_bool_spec (f : bool -> bool) :
  all_bool f = true -> forall b, f b = true.
Proof.
  unfold all_bool. intros H b. apply andb_true_iff in H as [Ht Hf].
  now destruct b.
Qed.

Lemma all_byte_spec (f : Byte.byte -> bool) :
  all_byte f = true -> forall x, f x = true.
Proof.
  intros H x. rewrite <- (Byte.of_bits_to_bits x).
  destruct (Byte.to_bits x) as [b0 [b1 [b2 [b3 [b4 [b5 [b6 b7]]]]]]].
  unfold all_byte in H.
  pose proof (all_bool_spec _ H b0) as H0; cbv beta in H0.
  pose proof (all_bool_spec _ H0 b1) as H1; cbv beta in H1.
  pose proof (all_bool_spec _ H1 b2) as H2; cbv beta in H2.
  pose proof (all_bool_spec _ H2 b3) as H3; cbv beta in H3.
  pose proof (all_bool_spec _ H3 b4) as H4; cbv beta in H4.
  pose proof (all_bool_spec _ H4 b5) as H5; cbv beta in H5.
  pose proof (all_bool_spec _ H5 b6) as H6; cbv beta in H6.
  exact (all_bool_spec _ H6 b7).
Qed.

Lemma all_byte2_spec (f : Byte.byte -> Byte.byte -> bool) :
  all_byte (fun x => all_byte (f x)) = true -> forall x y, f x y = true.
Proof.
  intros H x y.
  exact (all_byte_spec _ (all_byte_spec _ H x) y).
Qed.

(** Each character the encoder writes for a sextet decodes to that sextet. *)
Lemma char0_decodes (x : Byte.byte) :
  decodes_to (base64_char (sextet0 x)) (sextet0 x) = true.
Proof. revert x. apply all_byte_spec. vm_compute. reflexivity. Qed.

Lemma char1_decodes (x y : Byte.byte) :
  decodes_to (base64_char (sextet1 x y)) (sextet1 x y) = true.
Proof. revert x y. apply all_byte2_spec. vm_compute. reflexivity. Qed.

Lemma char2_decodes (y z : Byte.byte) :
  decodes_to (base64_char (sextet2 y z)) (sextet2 y z) = true.
Proof. revert y z. apply all_byte2_spec. vm_compute. reflexivity. Qed.

Lemma char3_decodes (z : Byte.byte) :
  decodes_to (base64_char (sextet3 z)) (sextet3 z) = true.
Proof. revert z. apply all_byte_spec. vm_compute. reflexivity. Qed.

Lemma char1_last_decodes (x : Byte.byte) :
  decodes_to (base64_char (N.shiftl (N.land (N_of_byte x) 3) 4))
             (N.shiftl (N.land (N_of_byte x) 3) 4) = true.
Proof. revert x. apply all_byte_spec. vm_compute. reflexivity. Qed.

Lemma char2_last_decodes (y : Byte.byte) :
  decodes_to (base64_char (N.shiftl (N.land (N_of_byte y) 15) 2))
             (N.shiftl (N.land (N_of_byte y) 15) 2) = true.
Proof. revert y. apply all_byte_spec. vm_compute. reflexivity. Qed.

(** The bytes the decoder rebuilds from the sextets of the encoder. *)
Lemma byte0_rebuilt (x y : Byte.byte) :
  byte_of_N (N.lor (N.shiftl (sextet0 x) 2) (N.shiftr (sextet1 x y) 4)) = x.
Proof.
  apply Byte.byte_dec_bl. revert x y.
  apply (all_byte2_spec (fun x y =>
    Byte.eqb (byte_of_N (N.lor (N.shiftl (sextet0 x) 2) (N.shiftr (sextet1 x y) 4))) x)).
  vm_compute. reflexivity.
Qed.

Lemma sextet1_low (x y : Byte.byte) :
  N.land (sextet1 x y) 15 = N.shiftr (N_of_byte y) 4.
Proof.
  apply N.eqb_eq. revert x y.
  apply (all_byte2_spec (fun x y =>
    N.eqb (N.land (sextet1 x y) 15) (N.shiftr (N_of_byte y) 4))).
  vm_compute. reflexivity.
Qed.

Lemma sextet2_high (y z : Byte.byte) :
  N.shiftr (sextet2 y z) 2 = N.land (N_of_byte y) 15.
Proof.
  apply N.eqb_eq. revert y z.
  apply (all_byte2_spec (fun y z =>
    N.eqb (N.shiftr (sextet2 y z) 2) (N.land (N_of_byte y) 15))).
  vm_compute. reflexivity.
Qed.

Lemma byte1_rebuilt (y : Byte.byte) :
  byte_of_N (N.lor (N.shiftl (N.shiftr (N_of_byte y) 4) 4) (N.land (N_of_byte y) 15)) = y.
Proof.
  apply Byte.byte_dec_bl. revert y.
  apply (all_byte_spec (fun y =>
    Byte.eqb (byte_of_N (N.lor (N.shiftl (N.shiftr (N_of_byte y) 4) 4)
                               (N.land (N_of_byte y) 15))) y)).
  vm_compute. reflexivity.
Qed.

Lemma byte2_rebuilt (y z : Byte.byte) :
  byte_of_N (N.lor (N.shiftl (N.land (sextet2 y z) 3) 6) (sextet3 z)) = z.
Proof.
  apply Byte.byte_dec_bl. revert y z.
  apply (all_byte2_spec (fun y z =>
    Byte.eqb (byte_of_N (N.lor (N.shiftl (N.land (sextet2 y z) 3) 6) (sextet3 z))) z)).
  vm_compute. reflexivity.
Qed.

Lemma byte0_last_rebuilt (x : Byte.byte) :
  byte_of_N (N.lor (N.shiftl (sextet0 x) 2)
                   (N.shiftr (N.shiftl (N.land (N_of_byte x) 3) 4) 4)) = x.
Proof.
  apply Byte.byte_dec_bl. revert x.
  apply (all_byte_spec (fun x =>
    Byte.eqb (byte_of_N (N.lor (N.shiftl (sextet0 x) 2)
                (N.shiftr (N.shiftl (N.land (N_of_byte x) 3) 4) 4))) x)).
  vm_compute. reflexivity.
Qed.

Lemma byte1_last_rebuilt (x y : Byte.byte) :
  byte_of_N (N.lor (N.shiftl (N.land (sextet1 x y) 15) 4)
                   (N.shiftr (N.shiftl (N.land (N_of_byte y) 15) 2) 2)) = y.
Proof.
  apply Byte.byte_dec_bl. revert x y.
  apply (all_byte2_spec (fun x y =>
    Byte.eqb (byte_of_N (N.lor (N.shiftl (N.land (sextet1 x y) 15) 4)
                (N.shiftr (N.shiftl (N.land (N_of_byte y) 15) 2) 2))) y)).
  vm_compute. reflexivity.
Qed.

Lemma sextets_cons (c : ascii) (v : N) (tail : string) :
  decodes_to c v = true -> sextets (String c tail) = v :: sextets tail.
Proof.
  unfold decodes_to. intros H. apply andb_true_iff in H as [Hc Hv].
  cbn [sextets]. apply negb_true_iff in Hc. rewrite Hc.
  destruct (unbase64 c) as [v'|]; [|discriminate].
  apply N.eqb_eq in Hv. now subst.
Qed.

Lemma list_ind3 {A : Type} (P : list A -> Prop) :
  P [] ->
  (forall x, P [x]) ->
  (forall x y, P [x; y]) ->
  (forall x y z r, P r -> P (x :: y :: z :: r)) ->
  forall l, P l.
Proof.
  intros H0 H1 H2 H3. fix IH 1.
  intros [|x [|y [|z r]]].
  - exact H0.
  - apply H1.
  - apply H2.
  - apply H3, IH.
Qed.

Lemma toString_base64_3 (x y z : Byte.byte) (r : list Byte.byte) :
  Buffer_toString_base64 (x :: y :: z :: r)
  = String (base64_char (sextet0 x))
      (String (base64_char (sextet1 x y))
         (String (base64_char (sextet2 y z))
            (String (base64_char (sextet3 z)) (Buffer_toString_base64 r)))).
Proof. reflexivity. Qed.

Lemma decode_encode_base64 (bytes : list Byte.byte) :
  Buffer_from_base64 (Buffer_toString_base64 bytes) = bytes.
Proof.
  unfold Buffer_from_base64.
  induction bytes as [|x|x y|x y z r IH] using list_ind3.
  - reflexivity.
  - change (Buffer_toString_base64 [x])
      with (String (base64_char (sextet0 x))
              (String (base64_char (N.shiftl (N.land (N_of_byte x) 3) 4)) "==")).
    rewrite (sextets_cons _ _ _ (char0_decodes x)).
    rewrite (sextets_cons _ _ _ (char1_last_decodes x)).
    cbn [sextets bytes_of_sextets Ascii.eqb Bool.eqb].
    now rewrite byte0_last_rebuilt.
  - change (Buffer_toString_base64 [x; y])
      with (String (base64_char (sextet0 x))
              (String (base64_char (sextet1 x y))
                 (String (base64_char (N.shiftl (N.land (N_of_byte y) 15) 2)) "="))).
    rewrite (sextets_cons _ _ _ (char0_decodes x)).
    rewrite (sextets_cons _ _ _ (char1_decodes x y)).
    rewrite (sextets_cons _ _ _ (char2_last_decodes y)).
    cbn [sextets bytes_of_sextets Ascii.eqb Bool.eqb].
    now rewrite byte0_rebuilt, byte1_last_rebuilt.
  - rewrite toString_base64_3.
    rewrite (sextets_cons _ _ _ (char0_decodes x)).
    rewrite (sextets_cons _ _ _ (char1_decodes x y)).
    rewrite (sextets_cons _ _ _ (char2_decodes y z)).
    rewrite (sextets_cons _ _ _ (char3_decodes z)).
    cbn [bytes_of_sextets].
    rewrite byte0_rebuilt, sextet1_low, sextet2_high, byte1_rebuilt, byte2_rebuilt.
    now rewrite IH.
Qed.

(** X4: decoding the base64 text of a buffer gives the buffer back, whatever
    its length and padding; so two buffers with the same base64 text are the
    same buffer. *)
Theorem base64_round_trip (bytes : list Byte.byte) :
  Buffer_from_base64 (Buffer_toString_base64 bytes) = bytes
  /\ forall bytes' : list Byte.byte,
       Buffer_toString_base64 bytes = Buffer_toString_base64 bytes' ->
       bytes = bytes'.
Proof.
  split; [apply decode_encode_base64|].
  intros bytes' H.
  rewrite <- (decode_encode_base64 bytes), H.
  apply decode_encode_base64.
Qed.

(** ** The upload tool: content type and bytes *)

Lemma toString_base64_head (x : Byte.byte) (r : list Byte.byte) :
  exists tail,
    Buffer_toString_base64 (x :: r) = String (base64_char (sextet0 x)) tail.
Proof.
  destruct r as [|y [|z r]]; eexists; reflexivity.
Qed.

Lemma char0_not_colon (x : Byte.byte) :
  Ascii.eqb ":" (base64_char (sextet0 x)) = false.
Proof.
  apply negb_true_iff. revert x.
  apply (all_byte_spec (fun x => negb (Ascii.eqb ":" (base64_char (sextet0 x))))).
  vm_compute. reflexivity.
Qed.

(** A base64 text is never taken for a data URI: its fifth character is not
    a colon. *)
Lemma match_data_uri_base64 (bytes : list Byte.byte) :
  match_data_uri (Buffer_toString_base64 bytes) = None.
Proof.
  rewrite match_data_uri_unfold.
  assert (E : starts_with "data:image/" (Buffer_toString_base64 bytes) = false).
  { destruct bytes as [|x [|y [|z [|x' r]]]].
    - reflexivity.
    - cbn [Buffer_toString_base64 starts_with].
      repeat (destruct (Ascii.eqb _ _); cbn [andb]; try reflexivity).
    - cbn [Buffer_toString_base64 starts_with].
      repeat (destruct (Ascii.eqb _ _); cbn [andb]; try reflexivity).
    - cbn [Buffer_toString_base64 starts_with].
      repeat (destruct (Ascii.eqb _ _); cbn [andb]; try reflexivity).
    - rewrite toString_base64_3.
      destruct (toString_base64_head x' r) as [tail ->].
      cbn [starts_with]. rewrite char0_not_colon.
      now rewrite !andb_false_r. }
  now rewrite E.
Qed.

(** X5: the base64 text of a buffer, as the read handlers return it, is decoded
    by the upload tool to that same buffer: bare, with the default content
    type, or behind a data-URI prefix, with the content type of the prefix. *)
Theorem upload_parses_encoded_bytes (bytes : list Byte.byte) :
  parseImageData (Buffer_toString_base64 bytes)
  = {| imageType := "png"; imageBuffer := bytes |}
  /\ forall subtype : string,
       subtype <> "" ->
       all_word subtype = true ->
       parseImageData
         ("data:image/" ++ subtype ++ ";base64," ++ Buffer_toString_base64 bytes)
       = {| imageType := subtype; imageBuffer := bytes |}.
Proof.
  split.
  - rewrite parseImageData_no_match by apply match_data_uri_base64.
    now rewrite decode_encode_base64.
  - intros subtype Hne Hw.
    rewrite (parseImageData_match _ subtype (Buffer_toString_base64 bytes)).
    + now rewrite decode_encode_base64.
    + apply match_data_uri_spec. repeat split; assumption.
Qed.

Lemma upload_parses_encoded_bytes_witness :
  parseImageData
    ("data:image/" ++ "webp" ++ ";base64,"
     ++ Buffer_toString_base64 (list_byte_of_string "Gyazo"))
  = {| imageType := "webp"; imageBuffer := list_byte_of_string "Gyazo" |}.
Proof.
  apply (proj2 (upload_parses_encoded_bytes (list_byte_of_string "Gyazo")) "webp").
  - discriminate.
  - reflexivity.
Defined.

(** X6: whatever the input, the content type the upload tool derives is a
    non-empty run of word characters; nothing else can reach the file name
    and the MIME type built from it. *)
Theorem imageType_is_word (base64Data : string) :
  imageType (parseImageData base64Data) <> ""
  /\ all_word (imageType (parseImageData base64Data)) = true.
Proof.
  destruct (match_data_uri base64Data) as [[cap rest]|] eqn:E.
  - rewrite (parseImageData_match _ _ _ E).
    apply match_data_uri_spec in E as [_ [Hne Hw]].
    split; assumption.
  - rewrite (parseImageData_no_match _ E). split; [discriminate | reflexivity].
Qed.

(** ** The resource handlers *)

(** Unfolds a run down to the answers of the upstream. *)
Ltac unfold_run :=
  cbv beta iota zeta delta
    [run calls returned listResources listTools readResource gyazo_latest_image
     try_catch bind fetch ask ret throw Error fst snd];
  unfold images_request, image_request, search_request in *.

(** X7: the lister gives one descriptor per image, in the order of the upstream;
    each has the MIME type "image/<type>" and, as display name, the title
    when it is a non-empty string and the identifier otherwise, so that the
    name is empty only for an image without identifier. *)
Theorem listResources_descriptors (w : World) (imgs : list GyazoImage) :
  fetch_images w (images_request w "10") = Resolved (Some imgs) ->
  exists rs : list Resource,
    run listResources w = ([images_request w "10"], Returned rs)
    /\ List.length rs = List.length imgs
    /\ forall (i : nat) (g : GyazoImage),
         nth_error imgs i = Some g ->
         exists r, nth_error rs i = Some r
           /\ res_uri r = "gyazo-mcp:///" ++ image_id g
           /\ res_mimeType r = "image/" ++ type g
           /\ (forall t, title (metadata g) = Some t -> t <> "" -> res_name r = t)
           /\ (title (metadata g) = None \/ title (metadata g) = Some "" ->
               res_name r = image_id g)
           /\ (image_id g <> "" -> res_name r <> "").
Proof.
  intros H. exists (map resource_of imgs).
  split; [now apply listResources_resolved|].
  split; [apply length_map|].
  intros i g Hi. exists (resource_of g).
  split; [now apply map_nth_error|].
  split; [reflexivity|]. split; [reflexivity|].
  unfold resource_of; simpl res_name.
  destruct (title (metadata g)) as [[|c t']|]; simpl.
  - repeat split; try tauto. intros t [= <-] Ht. now elim Ht.
  - repeat split; try discriminate.
    + now intros t [= <-] _.
    + intros [H0 | H0]; discriminate H0.
  - repeat split; try tauto. intros t H0; discriminate H0.
Qed.

Lemma listResources_descriptors_witness :
  exists rs : list Resource,
    run listResources refusing_world
    = ([images_request refusing_world "10"], Returned rs)
    /\ List.length rs = 2.
Proof.
  destruct (listResources_descriptors refusing_world
              [sample_image; injected_title] eq_refl)
    as [rs [Hrun [Hlen _]]].
  exists rs. split; [exact Hrun | exact Hlen].
Defined.

(** X8: a successful read returns two parts, both tagged with the URI as it was
    given: the image, with MIME type "image/<type>" and a base64 text that
    decodes to the bytes served at the record's URL, and the Markdown block
    as plain text.  Its calls are the identifier fetch, then the bytes
    fetch. *)
Theorem readResource_success (uri : string) (w : World)
        (g : GyazoImage) (bytes : list Byte.byte) :
  fetch_image w (image_request w (strip_prefix uri)) = Resolved (Some g) ->
  fetch_blob w (GetUrl (url g)) = Resolved bytes ->
  exists blob : string,
    run (readResource uri) w
    = ([image_request w (strip_prefix uri); GetUrl (url g)],
       Returned [ BlobContent uri ("image/" ++ type g) blob;
                  TextContent uri "text/plain" (getImageMetadataMarkdown g) ])
    /\ Buffer_from_base64 blob = bytes.
Proof.
  intros Hg Hb. exists (Buffer_toString_base64 bytes).
  split; [|apply decode_encode_base64].
  unfold_run. rewrite Hg. cbv iota beta. rewrite Hb. reflexivity.
Qed.

Lemma readResource_success_witness :
  exists blob : string,
    run (readResource "gyazo-mcp:///8980c5") sample_world
    = ([image_request sample_world "8980c5"; GetUrl "https://i.gyazo.com/8980c5.png"],
       Returned [ BlobContent "gyazo-mcp:///8980c5" "image/png" blob;
                  TextContent "gyazo-mcp:///8980c5" "text/plain"
                    (getImageMetadataMarkdown sample_image) ])
    /\ Buffer_from_base64 blob = list_byte_of_string "ABC".
Proof.
  exact (readResource_success "gyazo-mcp:///8980c5" sample_world sample_image
           (list_byte_of_string "ABC") eq_refl eq_refl).
Defined.



(** X10: the reader fetches image bytes only from the URL of the record the
    upstream returned for the identifier, and makes at most two calls. *)
Theorem readResource_bytes_provenance (uri : string) (w : World) (u : string) :
  In (GetUrl u) (calls (run (readResource uri) w)) ->
  (exists g, fetch_image w (image_request w (strip_prefix uri)) = Resolved (Some g)
             /\ u = url g)
  /\ List.length (calls (run (readResource uri) w)) = 2.
Proof.
  unfold_run.
  destruct (fetch_image w _) as [[g|]|[m|]] eqn:Hg; cbv iota beta.
  - intros Hin.
    assert (Hu : u = url g).
    { destruct (fetch_blob w _) as [b|[m|]]; cbv iota beta in Hin;
        simpl in Hin; destruct Hin as [H|[H|[]]]; congruence. }
    split; [exists g; now split|].
    destruct (fetch_blob w _) as [b|[m|]]; reflexivity.
  - simpl. intros [H|[]]; discriminate H.
  - simpl. intros [H|[]]; discriminate H.
  - simpl. intros [H|[]]; discriminate H.
Qed.

Lemma readResource_bytes_provenance_witness :
  exists g, fetch_image sample_world
              (image_request sample_world (strip_prefix "gyazo-mcp:///8980c5"))
            = Resolved (Some g)
            /\ "https://i.gyazo.com/8980c5.png" = url g.
Proof.
  apply (readResource_bytes_provenance "gyazo-mcp:///8980c5" sample_world
           "https://i.gyazo.com/8980c5.png").
  right. left. reflexivity.
Defined.

(** ** The tools: arguments and failures *)

(** X11: the search tool rejects a call without arguments, or whose query is not
    a string, before any upstream call. *)
Theorem gyazo_search_invalid_arguments (arguments : option Arguments) (w : World) :
  (forall a, arguments = Some a -> forall q, prop "query" a <> JStr q) ->
  run (callTool "gyazo_search" arguments) w
  = ([], Threw (ErrorObj
                  "Invalid search arguments: query is required and must be a string")).
Proof.
  intros H. unfold callTool. simpl String.eqb. unfold gyazo_search.
  destruct arguments as [a|]; [|reflexivity].
  specialize (H a eq_refl).
  destruct (prop "query" a) as [| | | |q]; try reflexivity.
  now elim (H q).
Qed.

Lemma gyazo_search_invalid_arguments_witness :
  run (callTool "gyazo_search" (Some [("query", JNum 7); ("page", JNum 2)])) sample_world
  = ([], Threw (ErrorObj
                  "Invalid search arguments: query is required and must be a string")).
Proof.
  apply (gyazo_search_invalid_arguments
           (Some [("query", JNum 7); ("page", JNum 2)]) sample_world).
  intros a [= <-] q. discriminate.
Defined.

(** X12: the upload tool rejects a call without arguments, or whose imageData is
    not a string, before any upstream call; the message does not carry the
    "Upload failed" prefix of the later failures. *)
Theorem gyazo_upload_invalid_arguments (arguments : option Arguments) (w : World) :
  (forall a, arguments = Some a -> forall s, prop "imageData" a <> JStr s) ->
  run (callTool "gyazo_upload" arguments) w
  = ([], Threw (ErrorObj
                  "Invalid upload arguments: imageData is required and must be a string")).
Proof.
  intros H. unfold callTool. simpl String.eqb. unfold gyazo_upload.
  destruct arguments as [a|]; [|reflexivity].
  specialize (H a eq_refl).
  destruct (prop "imageData" a) as [| | | |s]; try reflexivity.
  now elim (H s).
Qed.

Lemma gyazo_upload_invalid_arguments_witness :
  run (callTool "gyazo_upload" (Some [("title", JStr "no data")])) sample_world
  = ([], Threw (ErrorObj
                  "Invalid upload arguments: imageData is required and must be a string")).
Proof.
  apply (gyazo_upload_invalid_arguments (Some [("title", JStr "no data")]) sample_world).
  intros a [= <-] s. discriminate.
Defined.

(** X13: outside the reader and the upload tool nothing catches: when the
    upstream rejects the call of the lister, of the search tool or of the
    latest-image tool (its list call or its bytes fetch), the handler throws
    the very value of the rejection, Error or not. *)
Theorem rejections_propagate (w : World) (e : Thrown) :
  (fetch_images w (images_request w "10") = Rejected e ->
   run listResources w = ([images_request w "10"], Threw e))
  /\ (forall a query,
         prop "query" a = JStr query ->
         fetch_search w (search_request w query (page_of a) (per_of a)) = Rejected e ->
         run (callTool "gyazo_search" (Some a)) w
         = ([search_request w query (page_of a) (per_of a)], Threw e))
  /\ (forall arguments,
         fetch_images w (images_request w "1") = Rejected e ->
         run (callTool "gyazo_latest_image" arguments) w
         = ([images_request w "1"], Threw e))
  /\ (forall arguments image rest,
         fetch_images w (images_request w "1") = Resolved (Some (image :: rest)) ->
         fetch_blob w (GetUrl (url image)) = Rejected e ->
         run (callTool "gyazo_latest_image" arguments) w
         = ([images_request w "1"; GetUrl (url image)], Threw e)).
Proof.
  split; [|split; [|split]].
  - intros H. unfold_run. now rewrite H.
  - intros a query Hq H. unfold callTool. simpl String.eqb.
    unfold gyazo_search. rewrite Hq. unfold page_of, per_of in H.
    unfold_run. now rewrite H.
  - intros arguments H. unfold callTool. simpl String.eqb.
    unfold_run. now rewrite H.
  - intros arguments image rest H Hb. unfold callTool. simpl String.eqb.
    unfold_run. rewrite H. cbv iota beta. now rewrite Hb.
Qed.

Lemma rejections_propagate_witness :
  run listResources broken_world
  = ([images_request broken_world "10"], Threw NonError)
  /\ run (callTool "gyazo_search" (Some [("query", JStr "cat")])) broken_world
     = ([search_request broken_world "cat" 1 20], Threw NonError).
Proof.
  split.
  - exact (proj1 (rejections_propagate broken_world NonError) eq_refl).
  - exact (proj1 (proj2 (rejections_propagate broken_world NonError))
             [("query", JStr "cat")] "cat" eq_refl eq_refl).
Defined.

(** X14: the latest-image tool uses the first record of the list answer and
    nothing after it: it fetches the bytes at that record's URL and returns
    an image part, whose base64 data decodes to those bytes, and the
    record's Markdown block. *)
Theorem gyazo_latest_image_success (arguments : option Arguments) (w : World)
        (image : GyazoImage) (rest : list GyazoImage) (bytes : list Byte.byte) :
  fetch_images w (images_request w "1") = Resolved (Some (image :: rest)) ->
  fetch_blob w (GetUrl (url image)) = Resolved bytes ->
  exists data : string,
    run (callTool "gyazo_latest_image" arguments) w
    = ([images_request w "1"; GetUrl (url image)],
       Returned [ ImagePart data ("image/" ++ type image);
                  TextPart (getImageMetadataMarkdown image) ])
    /\ Buffer_from_base64 data = bytes.
Proof.
  intros H Hb. exists (Buffer_toString_base64 bytes).
  split; [|apply decode_encode_base64].
  unfold callTool. simpl String.eqb.
  unfold_run. rewrite H. cbv iota beta. now rewrite Hb.
Qed.

Lemma gyazo_latest_image_success_witness :
  exists data : string,
    run (callTool "gyazo_latest_image" None) sample_world
    = ([images_request sample_world "1"; GetUrl "https://i.gyazo.com/8980c5.png"],
       Returned [ ImagePart data "image/png";
                  TextPart (getImageMetadataMarkdown sample_image) ])
    /\ Buffer_from_base64 data = list_byte_of_string "ABC".
Proof.
  exact (gyazo_latest_image_success None sample_world sample_image []
           (list_byte_of_string "ABC") eq_refl eq_refl).
Defined.

(** ** The upload tool: its call and its outcomes *)

Lemma upload_form (a : Arguments) (file token : string * FormValue) :
  (append_if "app" (prop "app" a)
     (append_if "referer_url" (prop "refererUrl" a)
        (append_if "desc" (prop "description" a)
           (append_if "title" (prop "title" a) [file])))
   ++ [token])%list
  = (file :: optional_parts a ++ [token])%list.
Proof.
  unfold append_if, optional_parts. cbn [flat_map fst snd].
  destruct (js_truthy (prop "title" a));
    destruct (js_truthy (prop "description" a));
    destruct (js_truthy (prop "refererUrl" a));
    destruct (js_truthy (prop "app" a)); reflexivity.
Qed.

(** The run of the upload tool on valid arguments, in closed form. *)
Lemma gyazo_upload_run (a : Arguments) (s : string) (w : World) :
  prop "imageData" a = JStr s ->
  run (callTool "gyazo_upload" (Some a)) w
  = ([upload_request w a s], upload_outcome (fetch_upload w (upload_request w a s))).
Proof.
  intros H. unfold callTool. simpl String.eqb. unfold gyazo_upload. rewrite H.
  cbv beta iota zeta delta [run try_catch bind fetch ask ret throw Error].
  rewrite upload_form. fold (upload_request w a s).
  unfold upload_outcome, upload_summary.
  destruct (fetch_upload w (upload_request w a s)) as [[[] st [res|[m|]]]|[m|]];
    reflexivity.
Qed.



(** X16: once its arguments are accepted, every failure of the upload tool is an
    Error whose message opens with "Upload failed".  A response that is not
    ok gives "Upload failed: Upload failed with status: <status>", and a
    rejection by a value that is not an Error gives "Upload failed with an
    unknown error". *)
Theorem gyazo_upload_failures (a : Arguments) (s : string) (w : World) :
  prop "imageData" a = JStr s ->
  (forall log e,
      run (callTool "gyazo_upload" (Some a)) w = (log, Threw e) ->
      exists m, e = ErrorObj ("Upload failed" ++ m))
  /\ (forall response,
         fetch_upload w (upload_request w a s) = Resolved response ->
         ok response = false ->
         run (callTool "gyazo_upload" (Some a)) w
         = ([upload_request w a s],
            Threw (ErrorObj ("Upload failed: Upload failed with status: "
                             ++ Z_toString (status response)))))
  /\ (fetch_upload w (upload_request w a s) = Rejected NonError ->
      run (callTool "gyazo_upload" (Some a)) w
      = ([upload_request w a s],
         Threw (ErrorObj "Upload failed with an unknown error"))).
Proof.
  intros H. rewrite (gyazo_upload_run a s w H).
  split; [|split].
  - intros log e. unfold upload_outcome.
    destruct (fetch_upload w _) as [[[] st [res|[m|]]]|[m|]]; cbn [negb ok json];
      intros [= _ <-].
    + exists (": " ++ m). reflexivity.
    + exists " with an unknown error". reflexivity.
    + exists (": Upload failed with status: " ++ Z_toString st). reflexivity.
    + exists (": Upload failed with status: " ++ Z_toString st). reflexivity.
    + exists (": Upload failed with status: " ++ Z_toString st). reflexivity.
    + exists (": " ++ m). reflexivity.
    + exists " with an unknown error". reflexivity.
  - intros response Hr Hok. rewrite Hr. unfold upload_outcome. now rewrite Hok.
  - intros Hr. now rewrite Hr.
Qed.

Lemma gyazo_upload_failures_witness :
  run (callTool "gyazo_upload" (Some [("imageData", JStr "QUJD")])) refusing_world
  = ([upload_request refusing_world [("imageData", JStr "QUJD")] "QUJD"],
     Threw (ErrorObj "Upload failed: Upload failed with status: 403")).
Proof.
  exact (proj1 (proj2 (gyazo_upload_failures [("imageData", JStr "QUJD")] "QUJD"
                         refusing_world eq_refl))
           _ eq_refl eq_refl).
Defined.



(** ** The search tool and the catalogue *)

Lemma gyazo_search_run (a : Arguments) (query : string) (w : World) :
  prop "query" a = JStr query ->
  calls (run (callTool "gyazo_search" (Some a)) w)
  = [search_request w query (page_of a) (per_of a)].
Proof.
  intros Hq. unfold callTool. simpl String.eqb. unfold gyazo_search. rewrite Hq.
  unfold page_of, per_of. unfold_run.
  destruct (fetch_search w _) as [[[|image images]|]|e]; reflexivity.
Qed.

(** X18: when page or per is missing from the arguments, or is not a number, the
    search tool asks the upstream for the value the catalogue declares as
    the default of that property: page 1 and 20 results per page. *)
Theorem gyazo_search_defaults (a : Arguments) (query : string) (w : World) :
  prop "query" a = JStr query ->
  (forall n, prop "page" a <> JNum n) ->
  (forall n, prop "per" a <> JNum n) ->
  exists page per : Z,
    declared_default w "gyazo_search" "page" = Some page
    /\ declared_default w "gyazo_search" "per" = Some per
    /\ calls (run (callTool "gyazo_search" (Some a)) w)
       = [ Get "https://api.gyazo.com/api/search"
             [ ("access_token", GYAZO_ACCESS_TOKEN w); ("query", query);
               ("page", Z_toString page); ("per", Z_toString per) ] ].
Proof.
  intros Hq Hpage Hper. exists 1%Z, 20%Z.
  split; [reflexivity|]. split; [reflexivity|].
  rewrite (gyazo_search_run a query w Hq).
  unfold page_of, per_of.
  destruct (prop "page" a) as [| | |n|]; try (now elim (Hpage n));
    destruct (prop "per" a) as [| | |m|]; try (now elim (Hper m)); reflexivity.
Qed.

Lemma gyazo_search_defaults_witness :
  calls (run (callTool "gyazo_search"
                (Some [("query", JStr "cat"); ("page", JStr "2")]))
             sample_world)
  = [ Get "https://api.gyazo.com/api/search"
        [ ("access_token", "token"); ("query", "cat");
          ("page", "1"); ("per", "20") ] ].
Proof.
  destruct (gyazo_search_defaults [("query", JStr "cat"); ("page", JStr "2")] "cat"
              sample_world eq_refl)
    as [page [per [Hp [Hq H]]]].
  - intros n. discriminate.
  - intros n. discriminate.
  - injection Hp as <-. injection Hq as <-. exact H.
Defined.



(** X20: the catalogue and the dispatch agree: a call is turned down as an
    unknown tool, with no upstream call, exactly when its name is not one
    the catalogue lists. *)
Theorem catalogue_is_dispatched (name : string) (arguments : option Arguments)
        (w : World) :
  In name (map tool_name (catalogue w))
  <-> run (callTool name arguments) w
      <> ([], Threw (ErrorObj ("Tool " ++ name ++ " not found"))).
Proof.
  split.
  - intros Hin. cbn in Hin. destruct Hin as [<-|[<-|[<-|[]]]].
    + unfold callTool. simpl String.eqb. unfold_run.
      destruct (fetch_images w _) as [[[|image images]|]|e]; try discriminate.
      destruct (fetch_blob w _) as [b|e]; discriminate.
    + destruct arguments as [a|]; [|discriminate].
      destruct (prop "query" a) as [| | | |q] eqn:Hq;
        try (unfold callTool; simpl String.eqb; unfold gyazo_search;
             rewrite Hq; discriminate).
      intros E. pose proof (gyazo_search_run a q w Hq) as Hc.
      rewrite E in Hc. discriminate Hc.
    + destruct arguments as [a|]; [|discriminate].
      destruct (prop "imageData" a) as [| | | |s] eqn:Hs;
        try (unfold callTool; simpl String.eqb; unfold gyazo_upload;
             rewrite Hs; discriminate).
      rewrite (gyazo_upload_run a s w Hs). discriminate.
  - intros H. unfold callTool in H.
    destruct (String.eqb_spec name "gyazo_search") as [->|_];
      [right; left; reflexivity|].
    destruct (String.eqb_spec name "gyazo_latest_image") as [->|_];
      [left; reflexivity|].
    destruct (String.eqb_spec name "gyazo_upload") as [->|_];
      [right; right; left; reflexivity|].
    now elim H.
Qed.

Lemma catalogue_is_dispatched_witness :
  run (callTool "gyazo_upload" None) sample_world
  <> ([], Threw (ErrorObj "Tool gyazo_upload not found")).
Proof.
  apply (proj1 (catalogue_is_dispatched "gyazo_upload" None sample_world)).
  right. right. left. reflexivity.
Defined.

(** ** All handlers: what goes to the upstream *)

Lemma callTool_cases (name : string) (arguments : option Arguments) (w : World) :
  calls (run (callTool name arguments) w) = []
  \/ (exists a query,
         calls (run (callTool name arguments) w)
         = [search_request w query (page_of a) (per_of a)])
  \/ (exists a s,
         calls (run (callTool name arguments) w) = [upload_request w a s])
  \/ calls (run (callTool name arguments) w) = [images_request w "1"]
  \/ (exists u,
         calls (run (callTool name arguments) w) = [images_request w "1"; GetUrl u]).
Proof.
  unfold callTool.
  destruct (String.eqb_spec name "gyazo_search") as [->|_].
  { destruct arguments as [a|]; [|now left].
    destruct (prop "query" a) as [| | | |q] eqn:Hq;
      try (left; unfold gyazo_search; rewrite Hq; reflexivity).
    right; left. exists a, q.
    pose proof (gyazo_search_run a q w Hq) as H.
    unfold callTool in H. simpl String.eqb in H. exact H. }
  destruct (String.eqb_spec name "gyazo_latest_image") as [->|_].
  { unfold_run.
    destruct (fetch_images w _) as [[[|image images]|]|e];
      try (right; right; right; left; reflexivity).
    right; right; right; right. exists (url image).
    destruct (fetch_blob w _) as [b|e]; reflexivity. }
  destruct (String.eqb_spec name "gyazo_upload") as [->|_].
  { destruct arguments as [a|]; [|now left].
    destruct (prop "imageData" a) as [| | | |s] eqn:Hs;
      try (left; unfold gyazo_upload; rewrite Hs; reflexivity).
    right; right; left. exists a, s.
    pose proof (gyazo_upload_run a s w Hs) as H.
    unfold callTool in H. simpl String.eqb in H. now rewrite H. }
  now left.
Qed.

Lemma readResource_cases (uri : string) (w : World) :
  calls (run (readResource uri) w) = [image_request w (strip_prefix uri)]
  \/ exists u,
       calls (run (readResource uri) w)
       = [image_request w (strip_prefix uri); GetUrl u].
Proof.
  unfold_run.
  destruct (fetch_image w _) as [[g|]|[m|]]; try (left; reflexivity).
  right. exists (url g). destruct (fetch_blob w _) as [b|[m|]]; reflexivity.
Qed.

Lemma listResources_calls (w : World) :
  calls (run listResources w) = [images_request w "10"].
Proof.
  unfold_run. destruct (fetch_images w _) as [[imgs|]|e]; reflexivity.
Qed.


(** X22: no handler retries or loops: the catalogue is served without any call,
    the lister makes exactly one call, the reader one or two, a tool at most
    two, and of the tools only the latest-image tool ever fetches image
    bytes. *)
Theorem calls_are_bounded (w : World) :
  calls (run listTools w) = []
  /\ List.length (calls (run listResources w)) = 1
  /\ (forall uri,
         1 <= List.length (calls (run (readResource uri) w)) <= 2)
  /\ (forall name arguments,
         List.length (calls (run (callTool name arguments) w)) <= 2)
  /\ (forall name arguments,
         name <> "gyazo_latest_image" ->
         List.length (calls (run (callTool name arguments) w)) <= 1
         /\ filter is_bytes_fetch (calls (run (callTool name arguments) w)) = []).
Proof.
  split; [reflexivity|]. split; [|split; [|split]].
  - now rewrite listResources_calls.
  - intros uri.
    destruct (readResource_cases uri w) as [-> | [u ->]]; simpl; lia.
  - intros name arguments.
    destruct (callTool_cases name arguments w)
      as [-> | [(a & q & ->) | [(a & s & ->) | [-> | (u & ->)]]]];
      simpl; lia.
  - intros name arguments Hname. unfold callTool.
    destruct (String.eqb_spec name "gyazo_search") as [->|_].
    { destruct arguments as [a|]; [|split; [simpl; lia | reflexivity]].
      destruct (prop "query" a) as [| | | |q] eqn:Hq;
        try (unfold gyazo_search; rewrite Hq; split; [simpl; lia | reflexivity]).
      pose proof (gyazo_search_run a q w Hq) as H.
      unfold callTool in H. simpl String.eqb in H. rewrite H.
      split; [simpl; lia | reflexivity]. }
    destruct (String.eqb_spec name "gyazo_latest_image") as [->|_];
      [now elim Hname|].
    destruct (String.eqb_spec name "gyazo_upload") as [->|_].
    { destruct arguments as [a|]; [|split; [simpl; lia | reflexivity]].
      destruct (prop "imageData" a) as [| | | |s] eqn:Hs;
        try (unfold gyazo_upload; rewrite Hs; split; [simpl; lia | reflexivity]).
      pose proof (gyazo_upload_run a s w Hs) as H.
      unfold callTool in H. simpl String.eqb in H. rewrite H.
      split; [simpl; lia | reflexivity]. }
    split; [simpl; lia | reflexivity].
Qed.

Lemma calls_are_bounded_witness :
  List.length (calls (run (callTool "gyazo_search" (Some [("query", JStr "cat")]))
                          sample_world)) <= 1
  /\ filter is_bytes_fetch
       (calls (run (callTool "gyazo_search" (Some [("query", JStr "cat")]))
                   sample_world)) = [].
Proof.
  apply (proj2 (proj2 (proj2 (proj2 (calls_are_bounded sample_world))))
           "gyazo_search" (Some [("query", JStr "cat")])).
  discriminate.
Defined.

(** ** Search results and resource URIs *)

(** X23: the uri of a search result is a URI the reader understands: given to
    the reader, it makes it fetch the record of that result's identifier. *)
Theorem search_uri_is_readable (image : Search.SearchedGyazoImage) (w : World) :
  exists (uri : string) (others : list (string * Json)),
    search_content image = JObject (("uri", JString uri) :: others)
    /\ strip_prefix uri = Search.image_id image
    /\ hd_error (calls (run (readResource uri) w))
       = Some (Get ("https://api.gyazo.com/api/images/" ++ Search.image_id image)
                   [("access_token", GYAZO_ACCESS_TOKEN w)]).
Proof.
  eexists; eexists. split; [reflexivity|].
  split; [apply strip_resource_uri|].
  rewrite readResource_first_call, strip_resource_uri. reflexivity.
Qed.

(** X24: the text of a search result loses nothing it was given: two answers of
    the upstream that give the same text have the same number of records,
    and their records agree, one by one, on identifier, content type,
    permalink URL, URL, thumbnail URL, creation time and alt text. *)
Theorem search_text_determines_records
        (images images' : list Search.SearchedGyazoImage) :
  JSON_stringify_2 (JArray (map search_content images))
  = JSON_stringify_2 (JArray (map search_content images')) ->
  Forall2
    (fun i i' =>
       Search.image_id i = Search.image_id i'
       /\ Search.type i = Search.type i'
       /\ Search.permalink_url i = Search.permalink_url i'
       /\ Search.url i = Search.url i'
       /\ Search.thumb_url i = Search.thumb_url i'
       /\ Search.created_at i = Search.created_at i'
       /\ Search.alt_text i = Search.alt_text i')
    images images'.
Proof.
  intros H.
  assert (E : map search_content images = map search_content images').
  { apply (f_equal JSON_parse) in H.
    rewrite !JSON_parse_stringify in H. now injection H. }
  clear H. revert images' E.
  induction images as [|i images IH]; intros [|i' images'] E;
    cbn [map] in E; try discriminate E; constructor.
  - injection E as Hid Hty Hp Hu Ht Hc Ha _.
    repeat split; assumption.
  - apply IH. now injection E.
Qed.

Lemma search_text_determines_records_witness :
  Forall2
    (fun i i' =>
       Search.image_id i = Search.image_id i'
       /\ Search.type i = Search.type i'
       /\ Search.permalink_url i = Search.permalink_url i'
       /\ Search.url i = Search.url i'
       /\ Search.thumb_url i = Search.thumb_url i'
       /\ Search.created_at i = Search.created_at i'
       /\ Search.alt_text i = Search.alt_text i')
    [sample_hit] [sample_hit].
Proof.
  exact (search_text_determines_records [sample_hit] [sample_hit] eq_refl).
Defined.

(** *** Stripping the scheme prefix anywhere in a URI *)

Lemma starts_with_within (p a s : string) :
  starts_with p (a ++ s) = true ->
  String.length p <= String.length a ->
  starts_with p a = true.
Proof.
  revert a; induction p as [|x p IH]; intros a H Hlen; [reflexivity|].
  destruct a as [|y a]; [simpl in Hlen; lia|].
  simpl in *. apply andb_true_iff in H as [Hxy Hp].
  rewrite Hxy. apply IH; [exact Hp | lia].
Qed.

Lemma starts_with_beyond (p a s : string) :
  starts_with p (a ++ s) = true ->
  String.length a <= String.length p ->
  starts_with (drop (String.length a) p) s = true.
Proof.
  revert p; induction a as [|y a IH]; intros p H Hlen; [exact H|].
  destruct p as [|x p]; [simpl in Hlen; lia|].
  simpl in *. apply andb_true_iff in H as [_ Hp].
  apply IH; [exact Hp | lia].
Qed.

(** The scheme prefix does not overlap itself: no proper, non-empty tail of
    it opens a text that opens with the prefix. *)
Lemma scheme_prefix_no_overlap (k : nat) (b : string) :
  1 <= k <= 12 ->
  starts_with (drop k scheme_prefix) (scheme_prefix ++ b) = false.
Proof.
  intros Hk.
  do 13 (destruct k as [|k]; [try lia; reflexivity|]). lia.
Qed.

Lemma scheme_prefix_not_across (a b : string) :
  a <> "" ->
  starts_with scheme_prefix a = false ->
  starts_with scheme_prefix (a ++ scheme_prefix ++ b) = false.
Proof.
  intros Hne Ha.
  destruct (starts_with scheme_prefix (a ++ scheme_prefix ++ b)) eqn:E;
    [|reflexivity].
  destruct (le_lt_dec (String.length scheme_prefix) (String.length a)) as [Hl|Hl].
  - rewrite (starts_with_within _ _ _ E Hl) in Ha. discriminate Ha.
  - apply starts_with_beyond in E; [|lia].
    rewrite scheme_prefix_no_overlap in E; [discriminate E|].
    change (String.length scheme_prefix) with 13 in Hl.
    destruct a; [congruence | simpl in *; lia].
Qed.

(** X25: the reader removes the scheme prefix wherever it first stands, not only
    at the head of the URI: for a text [a] without the prefix, the URI
    [a ++ "gyazo-mcp:///" ++ b] is read as the identifier [a ++ b]. *)
Theorem strip_prefix_anywhere (a b : string) :
  includes "gyazo-mcp:///" a = false ->
  strip_prefix (a ++ "gyazo-mcp:///" ++ b) = a ++ b.
Proof.
  unfold strip_prefix.
  induction a as [|c a IH]; intros H.
  - apply (replace_first_prefix scheme_prefix).
  - cbn [includes] in H. apply orb_false_iff in H as [Hs Hi].
    change ((String c a) ++ "gyazo-mcp:///" ++ b)
      with (String c (a ++ scheme_prefix ++ b)).
    cbn [replace_first].
    change (String c (a ++ scheme_prefix ++ b))
      with ((String c a) ++ scheme_prefix ++ b) at 1.
    rewrite scheme_prefix_not_across; [|discriminate|exact Hs].
    simpl. f_equal. now apply IH.
Qed.

Lemma strip_prefix_anywhere_witness :
  strip_prefix ("https://" ++ "gyazo-mcp:///" ++ "8980c5") = "https://" ++ "8980c5".
Proof.
  exact (strip_prefix_anywhere "https://" "8980c5" eq_refl).
Defined.
